(** * Cart and order lifecycle of the food-delivery storefront

    A shallow embedding of the storefront's pages
    ([CartPage.jsx], [OrdersPage.jsx], the restaurant page and
    [HomePage.jsx]) together with the Cart Manager and the Order Placement
    Engine they talk to, followed by the properties of the cart and order
    lifecycle. *)

From Stdlib Require Import ZArith QArith List Floats String Ascii Bool Lia DecimalString.
From stdpp Require Import base option list gmap strings.

Set Warnings "-inexact-float".
Local Open Scope Z_scope.

(** ** JavaScript values used by the pages *)

Module Js.

(** A JavaScript number is an IEEE-754 binary64 value. *)
Abbreviation number := PrimFloat.float.

(** The binary64 value of an integer (round to nearest, ties to even), which
    is what a JSON integer becomes when the page reads it. *)
Definition of_Z (z : Z) : number :=
  SF2Prim (binary_normalize prec emax z 0 false).

(** The real number a finite binary64 value stands for, as a rational;
    infinities and NaN stand for none. *)
Definition exact (x : number) : option Q :=
  match Prim2SF x with
  | S754_zero _ => Some 0%Q
  | S754_finite s m e =>
      Some (Qmult (inject_Z (if s then Z.neg m else Z.pos m)) (Qpower 2 e))
  | S754_infinity _ | S754_nan => None
  end.

(** Strings are sequences of code units; the model keeps the code units
    below 256 (the Latin-1 range), one per [ascii]. *)
Definition code (a : ascii) : N := N_of_ascii a.

(** [WhiteSpace] and [LineTerminator] code units of the Latin-1 range:
    TAB, LF, VT, FF, CR, SP and NBSP. *)
Definition isWhiteSpace (a : ascii) : bool :=
  let n := code a in
  ((9 <=? n) && (n <=? 13) || (n =? 32) || (n =? 160))%N.

Fixpoint trimStart (s : string) : string :=
  match s with
  | EmptyString => EmptyString
  | String a s' => if isWhiteSpace a then trimStart s' else s
  end.

(** Drops the white space at the end: a character is kept when it is not
    white space or when something is kept after it. *)
Fixpoint trimEnd (s : string) : string :=
  match s with
  | EmptyString => EmptyString
  | String a s' =>
      match trimEnd s' with
      | EmptyString => if isWhiteSpace a then EmptyString else String a EmptyString
      | t => String a t
      end
  end.

(** [String.prototype.trim]. *)
Definition trim (s : string) : string := trimEnd (trimStart s).

(** Truthiness of a string: only the empty string is falsy. *)
Definition truthy (s : string) : bool :=
  match s with EmptyString => false | String _ _ => true end.

(** Lower case of one code unit: A-Z, and the capital letters of
    U+00C0-U+00DE (the multiplication sign U+00D7 is not a letter). *)
Definition lowerChar (a : ascii) : ascii :=
  let n := code a in
  if ((65 <=? n) && (n <=? 90))%N then ascii_of_N (n + 32)
  else if ((192 <=? n) && (n <=? 222) && negb (n =? 215))%N then ascii_of_N (n + 32)
  else a.

(** [String.prototype.toLowerCase] on text of the Latin-1 range, where it
    maps one code unit at a time. Beyond that range it depends on the
    context of a letter (the final sigma), which this model does not hold. *)
Fixpoint toLowerCase (s : string) : string :=
  match s with
  | EmptyString => EmptyString
  | String a s' => String (lowerChar a) (toLowerCase s')
  end.

(** [startsWith]: [q] is a prefix of [s]. *)
Fixpoint startsWith (s q : string) {struct q} : bool :=
  match q with
  | EmptyString => true
  | String b q' =>
      match s with
      | EmptyString => false
      | String a s' => Ascii.eqb a b && startsWith s' q'
      end
  end.

(** [String.prototype.includes]: [q] occurs in [s] at some position. *)
Fixpoint includes (s q : string) : bool :=
  startsWith s q ||
  match s with
  | EmptyString => false
  | String _ s' => includes s' q
  end.

(** Decimal digits of a natural number. *)
Definition digits (n : N) : string :=
  NilZero.string_of_uint (N.to_uint n).

(** [n] hundredths written with two decimals: at least three digits, a
    point before the last two. *)
Definition hundredths (n : N) : string :=
  let d := digits n in
  let d := match String.length d with
           | 1%nat => ("00" +:+ d)%string
           | 2%nat => ("0" +:+ d)%string
           | _ => d
           end in
  let k := (String.length d - 2)%nat in
  (substring 0 k d +:+ "." +:+ substring k 2 d)%string.

(** [Number.prototype.toFixed(2)] on the finite numbers below 10^21: the
    integer [n] with [n / 100] closest to the number (the larger one on a
    tie), written with two decimals; a negative number gets its sign. The
    other numbers, which [toFixed] hands to [ToString], have no rendering
    here. *)
Definition toFixed2 (x : number) : option string :=
  match Prim2SF x with
  | S754_zero _ => Some "0.00"%string
  | S754_finite s m e =>
      let n := if 0 <=? e then Z.pos m * 2 ^ e * 100
               else (2 * (Z.pos m * 100) + 2 ^ (- e)) / (2 * 2 ^ (- e)) in
      if 10 ^ 23 <=? n then None
      else Some ((if s then "-" else "") +:+ hundredths (Z.to_N n))%string
  | S754_infinity _ | S754_nan => None
  end.

(** [v || d] on numbers that hold integers: [0] is the falsy one. *)
Definition orDefault (v : option Z) (d : Z) : Z :=
  match v with
  | Some n => if n =? 0 then d else n
  | None => d
  end.

End Js.

(** ** Data model *)

(** A line of the cart, as the cart endpoint returns it. The quantity is a
    JavaScript number holding an integer. *)
Record CartItem := mkCartItem {
  menu_item_id : string;
  name : string;
  price : Js.number;
  quantity : Z;
  image : string
}.

Record Cart := mkCart {
  items : list CartItem;
  restaurant_id : option string
}.

(** The cart the page starts with: [{ items: [] }]. *)
Definition emptyCart : Cart := mkCart [] None.

Record Order := mkOrder {
  order_id : N;
  order_restaurant_id : option string;
  restaurant_name : string;
  order_items : list CartItem;
  delivery_address : string;
  total_amount : Js.number;
  status : string;
  created_at : N
}.

(** The error taxonomy of the core. *)
Inductive Error :=
| Unauthenticated
| InvalidQuantityError
| ItemNotFoundError
| CrossRestaurantError
| EmptyCartError
| MissingAddressError
| NotFoundError
| UnavailableError.

Inductive result (A : Type) :=
| Ok (a : A)
| Err (e : Error).
Arguments Ok {A} a.
Arguments Err {A} e.

(** ** Totals of the cart page ([CartPage.jsx], the order summary) *)

Module Totals.

(** [cart.items.reduce((sum, item) => sum + (item.price * item.quantity), 0)] *)
Definition total (c : Cart) : Js.number :=
  fold_left (fun sum item => (sum + price item * Js.of_Z (quantity item))%float)
            (items c) 0%float.

(** [total > 0 ? 3.99 : 0] *)
Definition deliveryFee (c : Cart) : Js.number :=
  if (0 <? total c)%float then 3.99%float else 0%float.

(** [total + deliveryFee] *)
Definition grandTotal (c : Cart) : Js.number :=
  (total c + deliveryFee c)%float.

Record totals := mkTotals {
  subtotal : Js.number;
  fee : Js.number;
  grand : Js.number
}.

Definition computeTotals (c : Cart) : totals :=
  mkTotals (total c) (deliveryFee c) (grandTotal c).

(** The amount a summary line shows: [${amount.toFixed(2)}]. *)
Definition shownAmount (amount : Js.number) : option string :=
  (fun text => "$" +:+ text)%string <$> Js.toFixed2 amount.

(** The order summary: subtotal, delivery fee and total as displayed. *)
Definition orderSummary (c : Cart) : list (option string) :=
  [shownAmount (total c); shownAmount (deliveryFee c); shownAmount (grandTotal c)].

End Totals.

(** ** The Cart Manager *)

Module CartManager.

(** Modelled from the spec: a catalog entry (section 6), what the catalog
    supplies for a menu item at add time; the catalog is not among the
    sources. *)
Record MenuItem := mkMenuItem {
  item_id : string;
  item_name : string;
  item_price : Js.number;
  item_image : string
}.

(** Modelled from the spec: the lines of a cart are keyed by their menu
    item id (section 3); the four helpers below look a line up and change its
    quantity. *)
Definition hasId (m : string) (it : CartItem) : bool :=
  String.eqb (menu_item_id it) m.

Definition contains (c : Cart) (m : string) : bool :=
  existsb (hasId m) (items c).

Definition find (c : Cart) (m : string) : option CartItem :=
  List.find (hasId m) (items c).

Definition withQuantity (f : Z -> Z) (m : string) (it : CartItem) : CartItem :=
  if hasId m it
  then mkCartItem (menu_item_id it) (name it) (price it) (f (quantity it)) (image it)
  else it.

(** Modelled from the spec: the condition of [CrossRestaurantError]
    (section 4.1), a cart that is non-empty and bound to another restaurant
    than [rid]. *)
Definition crossRestaurant (c : Cart) (rid : string) : bool :=
  match items c, restaurant_id c with
  | _ :: _, Some r => negb (String.eqb r rid)
  | _, _ => false
  end.

(** Modelled from the spec: [add] of the Cart Manager (section 4.1), the
    handler behind [POST /cart/add], which is not among the sources. The
    failures are checked in the order the contract lists them; name, price and
    image are those the catalog supplies at add time. *)
Definition add (c : Cart) (entry : MenuItem) (q : Z) (rid : string) : result Cart :=
  if crossRestaurant c rid then Err CrossRestaurantError
  else if q <? 1 then Err InvalidQuantityError
  else
    let m := item_id entry in
    Ok (mkCart
          (if contains c m
           then map (withQuantity (fun old => old + q) m) (items c)
           else items c ++ [mkCartItem m (item_name entry) (item_price entry) q (item_image entry)])
          (Some rid)).

(** Modelled from the spec: [remove] of the Cart Manager (section 4.1), the
    handler behind [DELETE /cart/remove/:id], which is not among the sources.
    An absent item leaves the cart as it is; otherwise the item is deleted
    and an emptied cart loses its restaurant id. *)
Definition remove (c : Cart) (m : string) : Cart :=
  if contains c m then
    let rest := List.filter (fun it => negb (hasId m it)) (items c) in
    mkCart rest (match rest with [] => None | _ :: _ => restaurant_id c end)
  else c.

(** Modelled from the spec: [updateQuantity] of the Cart Manager
    (section 4.1), the handler behind [PUT /cart/update], which is not among
    the sources. *)
Definition updateQuantity (c : Cart) (m : string) (q : Z) : result Cart :=
  if q <? 1 then Ok (remove c m)
  else if contains c m
  then Ok (mkCart (map (withQuantity (fun _ => q) m) (items c)) (restaurant_id c))
  else Err ItemNotFoundError.

End CartManager.

(** ** The Order Placement Engine and the server state *)

Module Server.

(** Modelled from the spec: the state behind the endpoints (sections 3 and
    6), which is not among the sources, for one authenticated user: the
    user's cart, the orders placed so far (latest first), the clock, and the
    catalog (menu entries and restaurant names). *)
Record t := mk {
  cart : Cart;
  orders : list Order;
  now : N;
  menu : gmap string CartManager.MenuItem;
  restaurants : gmap string string
}.

Definition withCart (s : t) (c : Cart) : t :=
  mk c (orders s) (now s) (menu s) (restaurants s).

(** Modelled from the spec: the generator of order ids, which is not among
    the sources; an id above every id in use. *)
Definition freshId (os : list Order) : N :=
  N.succ (fold_right N.max 0%N (map order_id os)).

(** Modelled from the spec: the restaurant name an order snapshots
    (section 3), looked up in the catalog. *)
Definition restaurantName (s : t) (r : option string) : string :=
  match r with
  | Some rid => default EmptyString (restaurants s !! rid)
  | None => EmptyString
  end.

(** Modelled from the spec: [placeOrder] of the Order Placement Engine
    (section 4.2), the handler behind [POST /orders], which is not among the
    sources. The snapshot and the clearing of the cart are one transition. *)
Definition placeOrder (s : t) (address : string) : result Order * t :=
  match items (cart s) with
  | [] => (Err EmptyCartError, s)
  | _ :: _ =>
      if Js.truthy (Js.trim address) then
        let o := mkOrder (freshId (orders s))
                         (restaurant_id (cart s))
                         (restaurantName s (restaurant_id (cart s)))
                         (items (cart s))
                         address
                         (Totals.grandTotal (cart s))
                         "placed"
                         (now s) in
        (Ok o, mk emptyCart (o :: orders s) (now s) (menu s) (restaurants s))
      else (Err MissingAddressError, s)
  end.

(** The endpoints the pages call, by method and path. *)
Inductive Request :=
| GetCart
| PostCartAdd (menu_item_id : string) (quantity : Z) (restaurant_id : string)
| PutCartUpdate (menu_item_id : string) (quantity : Z)
| DeleteCartRemove (menu_item_id : string)
| PostOrders (delivery_address : string)
| GetOrders.

(** Modelled from the spec: the handlers of the endpoints (section 6, one
    operation of section 4 per request), which are not among the sources.
    Each answers and gives the next state; a failure leaves the state as it
    is. *)
Definition getCart (s : t) : result Cart * t := (Ok (cart s), s).

Definition postCartAdd (s : t) (m : string) (q : Z) (rid : string) : result Cart * t :=
  match menu s !! m with
  | None => (Err NotFoundError, s)
  | Some entry =>
      match CartManager.add (cart s) entry q rid with
      | Ok c => (Ok c, withCart s c)
      | Err e => (Err e, s)
      end
  end.

Definition putCartUpdate (s : t) (m : string) (q : Z) : result Cart * t :=
  match CartManager.updateQuantity (cart s) m q with
  | Ok c => (Ok c, withCart s c)
  | Err e => (Err e, s)
  end.

Definition deleteCartRemove (s : t) (m : string) : result Cart * t :=
  let c := CartManager.remove (cart s) m in (Ok c, withCart s c).

Definition postOrders (s : t) (address : string) : result Order * t :=
  placeOrder s address.

(** Modelled from the spec: the state after a request. *)
Definition handle (s : t) (r : Request) : t :=
  match r with
  | GetCart => snd (getCart s)
  | PostCartAdd m q rid => snd (postCartAdd s m q rid)
  | PutCartUpdate m q => snd (putCartUpdate s m q)
  | DeleteCartRemove m => snd (deleteCartRemove s m)
  | PostOrders address => snd (postOrders s address)
  | GetOrders => s
  end.

End Server.

(** ** What the pages do besides changing their state *)

Module Ui.

(** Requests to the endpoints, toasts and navigation, in the order they
    happen. [ToastFailure e fallback] is
    [toast.error(error.response?.data?.detail || fallback)]. *)
Inductive Effect :=
| Call (r : Server.Request)
| ToastError (message : string)
| ToastFailure (e : Error) (fallback : string)
| ToastSuccess (message : string)
| Navigate (path : string).

End Ui.

(** ** The cart page ([CartPage.jsx]) *)

Module CartPage.
Import Ui.

(** The component's state: [cart], [deliveryAddress], [loading], [placing]. *)
Record State := mkState {
  cart : Cart;
  deliveryAddress : string;
  loading : bool;
  placing : bool
}.

Record World := mkWorld {
  server : Server.t;
  page : State;
  log : list Ui.Effect
}.

(** Handlers run in a state monad over the world. *)
Definition M (A : Type) : Type := World -> A * World.

#[export] Instance M_ret : MRet M := fun A a w => (a, w).
#[export] Instance M_bind : MBind M :=
  fun A B k m w => let (a, w') := m w in k a w'.

Definition run {A} (m : M A) (w : World) : World := snd (m w).

Definition emit (e : Effect) : M unit :=
  fun w => (tt, mkWorld (server w) (page w) (log w ++ [e])).

Definition getState : M State := fun w => (page w, w).

Definition setState (f : State -> State) : M unit :=
  fun w => (tt, mkWorld (server w) (f (page w)) (log w)).

Definition setCart (c : Cart) : M unit :=
  setState (fun p => mkState c (deliveryAddress p) (loading p) (placing p)).

Definition setDeliveryAddress (a : string) : M unit :=
  setState (fun p => mkState (cart p) a (loading p) (placing p)).

Definition setLoading (b : bool) : M unit :=
  setState (fun p => mkState (cart p) (deliveryAddress p) b (placing p)).

Definition setPlacing (b : bool) : M unit :=
  setState (fun p => mkState (cart p) (deliveryAddress p) (loading p) b).

(** [await api.<method>(...)]: the request reaches its endpoint and the
    answer comes back; [Err] is the rejected promise. *)
Definition api {A} (r : Server.Request) (endpoint : Server.t -> result A * Server.t)
  : M (result A) :=
  fun w =>
    let (answer, s') := endpoint (server w) in
    (answer, mkWorld s' (page w) (log w ++ [Call r])).

Definition loadCart : M unit :=
  response ← api Server.GetCart Server.getCart;
  match response with
  | Ok data => setCart data
  | Err _ => emit (ToastError "Failed to load cart")
  end;;
  setLoading false.

Definition removeItem (menuItemId : string) : M unit :=
  response ← api (Server.DeleteCartRemove menuItemId)
                 (fun s => Server.deleteCartRemove s menuItemId);
  match response with
  | Ok _ => loadCart;; emit (ToastSuccess "Item removed from cart")
  | Err _ => emit (ToastError "Failed to remove item")
  end.

Definition updateQuantity (menuItemId : string) (newQuantity : Z) : M unit :=
  if newQuantity <? 1 then removeItem menuItemId
  else
    response ← api (Server.PutCartUpdate menuItemId newQuantity)
                   (fun s => Server.putCartUpdate s menuItemId newQuantity);
    match response with
    | Ok _ => loadCart
    | Err _ => emit (ToastError "Failed to update quantity")
    end.

Definition placeOrder : M unit :=
  p ← getState;
  if negb (Js.truthy (Js.trim (deliveryAddress p)))
  then emit (ToastError "Please enter delivery address")
  else if (length (items (cart p)) =? 0)%nat
  then emit (ToastError "Your cart is empty")
  else
    setPlacing true;;
    response ← api (Server.PostOrders (deliveryAddress p))
                   (fun s => Server.postOrders s (deliveryAddress p));
    match response with
    | Ok _ => emit (ToastSuccess "Order placed successfully!");; emit (Navigate "/orders")
    | Err e => emit (ToastFailure e "Failed to place order")
    end;;
    setPlacing false.

End CartPage.

(** ** The orders page ([OrdersPage.jsx]) *)

Module OrdersPage.

Inductive Icon := Clock | Package | CheckCircle.

(** A rendered icon element, [<Icon className=... />]. *)
Record Element := mkElement {
  icon : Icon;
  className : string
}.

Definition getStatusIcon (status : string) : Element :=
  if String.eqb status "placed" then mkElement Clock "w-5 h-5"
  else if String.eqb status "preparing" then mkElement Package "w-5 h-5"
  else if String.eqb status "delivered" then mkElement CheckCircle "w-5 h-5"
  else mkElement Package "w-5 h-5".

Definition getStatusColor (status : string) : string :=
  if String.eqb status "placed" then "bg-blue-100 text-blue-700 border-blue-300"
  else if String.eqb status "preparing" then "bg-yellow-100 text-yellow-700 border-yellow-300"
  else if String.eqb status "delivered" then "bg-green-100 text-green-700 border-green-300"
  else "bg-gray-100 text-gray-700 border-gray-300".

End OrdersPage.

(** ** The restaurant page ([RestaurantPage], the quantity selectors) *)

Module RestaurantPage.
Import Ui.

(** The menu item a card of the page shows. *)
Record MenuItem := mkMenuItem {
  id : string;
  name : string;
  price : Js.number;
  available : bool
}.

(** [quantities[itemId] || 1], the quantity the selector shows. *)
Definition shown (quantities : gmap string Z) (itemId : string) : Z :=
  Js.orDefault (quantities !! itemId) 1.

Definition updateQuantity (quantities : gmap string Z) (itemId : string) (delta : Z)
  : gmap string Z :=
  let current := Js.orDefault (quantities !! itemId) 1 in
  let newQuantity := Z.max 1 (current + delta) in
  <[itemId := newQuantity]> quantities.

(** A call of [handleAddToCart] that awaits its answer: the menu item and
    the [quantities] its closure captured. *)
Record Awaiting := mkAwaiting {
  menuItem : MenuItem;
  captured : gmap string Z
}.

(** The component's state: the signed-in user, the id of the restaurant
    shown, the pending quantities, and the calls awaiting an answer. *)
Record State := mkState {
  user : option string;
  restaurant : string;
  quantities : gmap string Z;
  awaiting : list Awaiting
}.

(** [useState({})], nothing in flight. *)
Definition initial (user : option string) (restaurant : string) : State :=
  mkState user restaurant ∅ [].

(** [handleAddToCart] up to its [await]. *)
Definition handleAddToCart (st : State) (item : MenuItem) : State * list Effect :=
  match user st with
  | None => (st, [ToastError "Please login to add items to cart"; Navigate "/"])
  | Some _ =>
      let quantity := Js.orDefault (quantities st !! id item) 1 in
      (mkState (user st) (restaurant st) (quantities st)
               (awaiting st ++ [mkAwaiting item (quantities st)]),
       [Call (Server.PostCartAdd (id item) quantity (restaurant st))])
  end.

(** [handleAddToCart] after its [await], for the [k]-th call in flight. *)
Definition settle (st : State) (k : nat) (answer : result unit) : State * list Effect :=
  match awaiting st !! k with
  | None => (st, [])
  | Some call =>
      let rest := take k (awaiting st) ++ drop (S k) (awaiting st) in
      match answer with
      | Ok _ =>
          (mkState (user st) (restaurant st)
                   (<[id (menuItem call) := 1]> (captured call)) rest,
           [ToastSuccess ("Added " +:+ name (menuItem call) +:+ " to cart")])
      | Err e =>
          (mkState (user st) (restaurant st) (quantities st) rest,
           [ToastFailure e "Failed to add to cart"])
      end
  end.

(** The buttons of a selector pass [1] and [-1]. *)
Inductive Click := Increase | Decrease.

Definition delta (c : Click) : Z :=
  match c with Increase => 1 | Decrease => -1 end.

Inductive Event :=
| Clicked (itemId : string) (c : Click)
| AddToCart (item : MenuItem)
| Answered (k : nat) (answer : result unit).

Definition step (st : State) (e : Event) : State * list Effect :=
  match e with
  | Clicked itemId c =>
      (mkState (user st) (restaurant st)
               (updateQuantity (quantities st) itemId (delta c)) (awaiting st), [])
  | AddToCart item => handleAddToCart st item
  | Answered k answer => settle st k answer
  end.

(** The state after a sequence of events, and everything done on the way. *)
Fixpoint steps (st : State) (es : list Event) : State * list Effect :=
  match es with
  | [] => (st, [])
  | e :: es' =>
      let (st', out) := step st e in
      let (st'', out') := steps st' es' in
      (st'', out ++ out')
  end.

(** The quantity a request to [POST /cart/add] carries. *)
Definition sentQuantity (e : Effect) : option Z :=
  match e with
  | Call (Server.PostCartAdd _ q _) => Some q
  | _ => None
  end.

End RestaurantPage.

(** ** The home page ([HomePage.jsx], the restaurant list) *)

Module HomePage.

Record Restaurant := mkRestaurant {
  id : string;
  name : string;
  description : string;
  cuisine_type : string;
  image : string
}.

Definition cuisineTypes : list string :=
  ["All"; "American"; "Italian"; "Japanese"; "Mexican"; "Indian"; "Asian"]%string.

Definition matchesSearch (restaurant : Restaurant) (searchQuery : string) : bool :=
  Js.includes (Js.toLowerCase (name restaurant)) (Js.toLowerCase searchQuery)
  || Js.includes (Js.toLowerCase (description restaurant)) (Js.toLowerCase searchQuery).

Definition matchesCuisine (restaurant : Restaurant) (selectedCuisine : string) : bool :=
  String.eqb selectedCuisine "All"
  || String.eqb (cuisine_type restaurant) selectedCuisine.

Definition filteredRestaurants (restaurants : list Restaurant)
  (searchQuery selectedCuisine : string) : list Restaurant :=
  List.filter
    (fun restaurant =>
       matchesSearch restaurant searchQuery && matchesCuisine restaurant selectedCuisine)
    restaurants.

End HomePage.

(** ** The restaurant page: loading and the category tabs *)

Module RestaurantMenu.

(** A menu item as the menu endpoint returns it. *)
Record MenuEntry := mkMenuEntry {
  id : string;
  name : string;
  description : string;
  price : Js.number;
  image : string;
  category : string;
  available : bool
}.

(** The object [handleAddToCart] receives is the entry itself. *)
Definition asMenuItem (item : MenuEntry) : RestaurantPage.MenuItem :=
  RestaurantPage.mkMenuItem (id item) (name item) (price item) (available item).

(** [set.add(x)]: a value already in the set is not added again, a new one
    goes last. *)
Definition setAdd (set : list string) (x : string) : list string :=
  if existsb (String.eqb x) set then set else set ++ [x].

(** [[...new Set(xs)]]: the distinct values, in the order they first
    occur. *)
Definition newSet (xs : list string) : list string :=
  fold_left setAdd xs [].

(** [["All", ...new Set(menuItems.map(item => item.category))]] *)
Definition categories (menuItems : list MenuEntry) : list string :=
  "All"%string :: newSet (map category menuItems).

Definition filteredMenu (menuItems : list MenuEntry) (selectedCategory : string)
  : list MenuEntry :=
  if String.eqb selectedCategory "All" then menuItems
  else List.filter (fun item => String.eqb (category item) selectedCategory) menuItems.

(** The part of the component's state that loading fills. *)
Record State := mkState {
  restaurant : option HomePage.Restaurant;
  menuItems : list MenuEntry;
  selectedCategory : string;
  loading : bool
}.

(** [useState(null)], [useState([])], [useState("All")], [useState(true)]. *)
Definition initial : State := mkState None [] "All" true.

(** [loadRestaurantData], given the answers to its two requests, which
    [Promise.all] awaits together. *)
Definition loadRestaurantData
  (restaurantRes : result HomePage.Restaurant) (menuRes : result (list MenuEntry))
  (st : State) : State * list Ui.Effect :=
  match restaurantRes, menuRes with
  | Ok r, Ok menu => (mkState (Some r) menu (selectedCategory st) false, [])
  | _, _ =>
      (mkState (restaurant st) (menuItems st) (selectedCategory st) false,
       [Ui.ToastError "Failed to load restaurant"])
  end.

(** What the component renders: the spinner, "Restaurant not found", or
    the restaurant with its tabs and the menu of the selected tab. *)
Inductive View :=
| Loading
| NotFound
| Shown (r : HomePage.Restaurant) (tabs : list string) (menu : list MenuEntry).

Definition view (st : State) : View :=
  if loading st then Loading
  else match restaurant st with
       | None => NotFound
       | Some r => Shown r (categories (menuItems st))
                         (filteredMenu (menuItems st) (selectedCategory st))
       end.

End RestaurantMenu.

(** ** The session: [App.js] and the sign-in handlers of [HomePage.jsx] *)

Module LoginForm.

(** [loginForm]: [{ email, password }]. *)
Record t := mk {
  email : string;
  password : string
}.

Definition empty : t := mk "" "".

End LoginForm.

Module RegisterForm.

(** [registerForm]: [{ email, password, name, phone, address }]. *)
Record t := mk {
  email : string;
  password : string;
  name : string;
  phone : string;
  address : string
}.

Definition empty : t := mk "" "" "" "" "".

End RegisterForm.

Module Session.

(** The user object the server returns; [address] may be missing. *)
Record User := mkUser {
  name : string;
  address : option string
}.

(** The requests of the session, by method and path. *)
Inductive Request :=
| PostSeedData
| GetAuthMe
| PostAuthLogin (form : LoginForm.t)
| PostAuthRegister (form : RegisterForm.t).

(** What happens: a request with the [Authorization] header it carries, if
    any; a toast; a line on the console. *)
Inductive Effect :=
| Sent (r : Request) (authorization : option string)
| Page (e : Ui.Effect)
| ConsoleError (label : string).

(** The request interceptor of [api]: the header is set when
    [localStorage.getItem("token")] is truthy. *)
Definition authorization (localStorage : gmap string string) : option string :=
  match localStorage !! "token"%string with
  | Some token => if Js.truthy token then Some ("Bearer " +:+ token)%string else None
  | None => None
  end.

(** [user] and [loading] of [App], the browser's [localStorage], and the
    state of the sign-in dialog of the home page. *)
Record State := mkState {
  user : option User;
  appLoading : bool;
  localStorage : gmap string string;
  showAuthModal : bool;
  authMode : string;
  loading : bool;
  loginForm : LoginForm.t;
  registerForm : RegisterForm.t
}.

(** The state when [App] mounts, over what the browser stored. *)
Definition mounted (storage : gmap string string) : State :=
  mkState None true storage false "login" false LoginForm.empty RegisterForm.empty.

(** The first step of [initApp]: the seeding request, sent with plain
    [axios]; its failure only goes to the console. *)
Definition seedData (seed : result unit) : list Effect :=
  Sent PostSeedData None
  :: match seed with Ok _ => [] | Err _ => [ConsoleError "Seed data error:"] end.

(** [initApp], given the answers to [POST /seed-data] and [GET /auth/me];
    the second request goes through [api]. *)
Definition initApp (seed : result unit) (me : result User) (st : State)
  : State * list Effect :=
  let done user storage :=
    mkState user false storage (showAuthModal st) (authMode st) (loading st)
            (loginForm st) (registerForm st) in
  match localStorage st !! "token"%string with
  | Some token =>
      if Js.truthy token then
        match me with
        | Ok data =>
            (done (Some data) (localStorage st),
             seedData seed ++ [Sent GetAuthMe (authorization (localStorage st))])
        | Err _ =>
            (done (user st) (delete "token"%string (localStorage st)),
             seedData seed ++ [Sent GetAuthMe (authorization (localStorage st))])
        end
      else (done (user st) (localStorage st), seedData seed)
  | None => (done (user st) (localStorage st), seedData seed)
  end.

(** [handleLogin], given the answer to [POST /auth/login]: the token and
    the user. *)
Definition handleLogin (answer : result (string * User)) (st : State)
  : State * list Effect :=
  match answer with
  | Ok (token, data) =>
      (mkState (Some data) (appLoading st)
               (<["token"%string := token]> (localStorage st))
               false (authMode st) false LoginForm.empty (registerForm st),
       [Sent (PostAuthLogin (loginForm st)) None; Page (Ui.ToastSuccess "Welcome back!")])
  | Err e =>
      (mkState (user st) (appLoading st) (localStorage st)
               (showAuthModal st) (authMode st) false (loginForm st) (registerForm st),
       [Sent (PostAuthLogin (loginForm st)) None; Page (Ui.ToastFailure e "Login failed")])
  end.

(** [handleRegister], given the answer to [POST /auth/register]. *)
Definition handleRegister (answer : result (string * User)) (st : State)
  : State * list Effect :=
  match answer with
  | Ok (token, data) =>
      (mkState (Some data) (appLoading st)
               (<["token"%string := token]> (localStorage st))
               false (authMode st) false (loginForm st) RegisterForm.empty,
       [Sent (PostAuthRegister (registerForm st)) None;
        Page (Ui.ToastSuccess "Account created successfully!")])
  | Err e =>
      (mkState (user st) (appLoading st) (localStorage st)
               (showAuthModal st) (authMode st) false (loginForm st) (registerForm st),
       [Sent (PostAuthRegister (registerForm st)) None;
        Page (Ui.ToastFailure e "Registration failed")])
  end.

Definition handleLogout (st : State) : State * list Effect :=
  (mkState None (appLoading st) (delete "token"%string (localStorage st))
           (showAuthModal st) (authMode st) (loading st) (loginForm st) (registerForm st),
   [Page (Ui.ToastSuccess "Logged out successfully")]).

(** What the visitor does on the home page. *)
Inductive Event :=
| OpenedDialog
| TypedLogin (form : LoginForm.t)
| TypedRegister (form : RegisterForm.t)
| SubmittedLogin (answer : result (string * User))
| SubmittedRegister (answer : result (string * User))
| ClickedLogout.

Definition step (st : State) (e : Event) : State * list Effect :=
  match e with
  | OpenedDialog =>
      (mkState (user st) (appLoading st) (localStorage st) true (authMode st) (loading st)
               (loginForm st) (registerForm st), [])
  | TypedLogin form =>
      (mkState (user st) (appLoading st) (localStorage st) (showAuthModal st) (authMode st)
               (loading st) form (registerForm st), [])
  | TypedRegister form =>
      (mkState (user st) (appLoading st) (localStorage st) (showAuthModal st) (authMode st)
               (loading st) (loginForm st) form, [])
  | SubmittedLogin answer => handleLogin answer st
  | SubmittedRegister answer => handleRegister answer st
  | ClickedLogout => handleLogout st
  end.

(** The state after [initApp] and then a sequence of events. *)
Definition run (storage : gmap string string) (seed : result unit) (me : result User)
  (es : list Event) : State :=
  fold_left (fun st e => fst (step st e)) es (fst (initApp seed me (mounted storage))).

End Session.

(** ** The cart page over any backend, its mounting and its buttons *)

Module CartPageOn.
Import Ui CartPage.

(** How the endpoints of the cart page answer: for each request the
    answer and the next state behind the endpoints. Nothing is assumed of
    it; a request may be refused or fail in transport. *)
Record Backend := mkBackend {
  answerCart : Server.Request -> Server.t -> result Cart * Server.t;
  answerOrder : string -> Server.t -> result Order * Server.t
}.

(** The backend of the model: the endpoints of [Server]. *)
Definition modelled : Backend :=
  mkBackend
    (fun r s =>
       match r with
       | Server.GetCart => Server.getCart s
       | Server.PutCartUpdate m q => Server.putCartUpdate s m q
       | Server.DeleteCartRemove m => Server.deleteCartRemove s m
       | Server.PostCartAdd m q rid => Server.postCartAdd s m q rid
       | _ => (Err NotFoundError, s)
       end)
    (fun address s => Server.postOrders s address).

(** A backend that answers as told and keeps its state. *)
Definition scripted (cartAnswer : Server.Request -> result Cart)
  (orderAnswer : string -> result Order) : Backend :=
  mkBackend (fun r s => (cartAnswer r, s)) (fun address s => (orderAnswer address, s)).

Definition loadCart (b : Backend) : M unit :=
  response ← api Server.GetCart (answerCart b Server.GetCart);
  match response with
  | Ok data => setCart data
  | Err _ => emit (ToastError "Failed to load cart")
  end;;
  setLoading false.

Definition removeItem (b : Backend) (menuItemId : string) : M unit :=
  response ← api (Server.DeleteCartRemove menuItemId)
                 (answerCart b (Server.DeleteCartRemove menuItemId));
  match response with
  | Ok _ => loadCart b;; emit (ToastSuccess "Item removed from cart")
  | Err _ => emit (ToastError "Failed to remove item")
  end.

Definition updateQuantity (b : Backend) (menuItemId : string) (newQuantity : Z) : M unit :=
  if newQuantity <? 1 then removeItem b menuItemId
  else
    response ← api (Server.PutCartUpdate menuItemId newQuantity)
                   (answerCart b (Server.PutCartUpdate menuItemId newQuantity));
    match response with
    | Ok _ => loadCart b
    | Err _ => emit (ToastError "Failed to update quantity")
    end.

Definition placeOrder (b : Backend) : M unit :=
  p ← getState;
  if negb (Js.truthy (Js.trim (deliveryAddress p)))
  then emit (ToastError "Please enter delivery address")
  else if (length (items (cart p)) =? 0)%nat
  then emit (ToastError "Your cart is empty")
  else
    setPlacing true;;
    response ← api (Server.PostOrders (deliveryAddress p))
                   (answerOrder b (deliveryAddress p));
    match response with
    | Ok _ => emit (ToastSuccess "Order placed successfully!");; emit (Navigate "/orders")
    | Err e => emit (ToastFailure e "Failed to place order")
    end;;
    setPlacing false.

(** [user.address || ""] *)
Definition addressOrEmpty (u : Session.User) : string :=
  match Session.address u with
  | Some a => if Js.truthy a then a else EmptyString
  | None => EmptyString
  end.

(** The effect of mounting, [useEffect(..., [user])]: without a user the
    page says so and goes home; with one it loads the cart and fills in the
    address of the profile. *)
Definition mount (b : Backend) (user : option Session.User) : M unit :=
  match user with
  | None => emit (ToastError "Please login to view cart");; emit (Navigate "/")
  | Some u => loadCart b;; setDeliveryAddress (addressOrEmpty u)
  end.

(** The state the component starts in: [{ items: [] }], [""], loading, not
    placing. *)
Definition initial : State := mkState emptyCart "" true false.

(** What the component renders: the spinner, the empty cart, or the lines
    with the order summary, the address field and the order button, which is
    disabled while placing or without items. *)
Inductive View :=
| Spinner
| EmptyCart
| Lines (lines : list CartItem) (summary : list (option string)) (address : string)
        (orderDisabled : bool) (orderLabel : string).

Definition view (p : State) : View :=
  if loading p then Spinner
  else if (length (items (cart p)) =? 0)%nat then EmptyCart
  else Lines (items (cart p)) (Totals.orderSummary (cart p)) (deliveryAddress p)
             (placing p || (length (items (cart p)) =? 0)%nat)
             (if placing p then "Placing Order..." else "Place Order").

(** What the buttons of a line call. *)
Definition decrease (b : Backend) (item : CartItem) : M unit :=
  updateQuantity b (menu_item_id item) (quantity item - 1).

Definition increase (b : Backend) (item : CartItem) : M unit :=
  updateQuantity b (menu_item_id item) (quantity item + 1).

(** What the user can do on the page; a line is named by its position. *)
Inductive Click :=
| Decrease (i : nat)
| Increase (i : nat)
| Remove (i : nat)
| TypeAddress (a : string)
| PlaceOrder.

(** A click reaches its handler when the element is rendered and
    enabled. *)
Definition click (b : Backend) (c : Click) : M unit :=
  p ← getState;
  match view p with
  | Lines lines _ _ orderDisabled _ =>
      match c with
      | Decrease i => match lines !! i with Some item => decrease b item | None => mret tt end
      | Increase i => match lines !! i with Some item => increase b item | None => mret tt end
      | Remove i =>
          match lines !! i with
          | Some item => removeItem b (menu_item_id item)
          | None => mret tt
          end
      | TypeAddress a => setDeliveryAddress a
      | PlaceOrder => if orderDisabled then mret tt else placeOrder b
      end
  | _ => mret tt
  end.

(** The world after a sequence of clicks, each handled to its end. *)
Definition clicks (b : Backend) (cs : list Click) (w : World) : World :=
  fold_left (fun w c => run (click b c) w) cs w.

(** [placeOrder] up to its [await]: the address the request carries, if one
    is sent. *)
Definition placeOrderStart : M (option string) :=
  p ← getState;
  if negb (Js.truthy (Js.trim (deliveryAddress p)))
  then emit (ToastError "Please enter delivery address");; mret None
  else if (length (items (cart p)) =? 0)%nat
  then emit (ToastError "Your cart is empty");; mret None
  else
    setPlacing true;;
    emit (Call (Server.PostOrders (deliveryAddress p)));;
    mret (Some (deliveryAddress p)).

(** [placeOrder] after its [await]. *)
Definition placeOrderFinish (response : result Order) : M unit :=
  match response with
  | Ok _ => emit (ToastSuccess "Order placed successfully!");; emit (Navigate "/orders")
  | Err e => emit (ToastFailure e "Failed to place order")
  end;;
  setPlacing false.

(** The page with the order requests that await their answer. *)
Record Awaited := mkAwaited {
  world : World;
  inFlight : list string
}.

(** What happens on the page while order requests may be in flight: a
    press on the order button, typing in the address field, a cart that was
    loaded again, the answer to the oldest order request. *)
Inductive Happening :=
| Pressed
| Typed (a : string)
| Reloaded (c : Cart)
| Answered (response : result Order).

Definition happen (st : Awaited) (h : Happening) : Awaited :=
  match h with
  | Pressed =>
      match view (page (world st)) with
      | Lines _ _ _ false _ =>
          let (sent, w) := placeOrderStart (world st) in
          mkAwaited w (inFlight st ++ match sent with Some a => [a] | None => [] end)
      | _ => st
      end
  | Typed a => mkAwaited (run (setDeliveryAddress a) (world st)) (inFlight st)
  | Reloaded c => mkAwaited (run (setCart c;; setLoading false) (world st)) (inFlight st)
  | Answered response =>
      match inFlight st with
      | [] => st
      | _ :: rest => mkAwaited (run (placeOrderFinish response) (world st)) rest
      end
  end.

End CartPageOn.

(** ** Loading the orders page and the home page *)

Module OrdersLoad.
Import Ui.

(** [orders] and [loading] of [OrdersPage]. *)
Record State := mkState {
  orders : list Order;
  loading : bool
}.

(** [useState([])], [useState(true)]. *)
Definition initial : State := mkState [] true.

(** [loadOrders], given the answer to [GET /orders]. *)
Definition loadOrders (answer : result (list Order)) (st : State) : State * list Effect :=
  match answer with
  | Ok data => (mkState data false, [Call Server.GetOrders])
  | Err _ =>
      (mkState (orders st) false,
       [Call Server.GetOrders; ToastError "Failed to load orders"])
  end.

(** The effect of mounting, [useEffect(..., [user])]. *)
Definition mount (user : option Session.User) (answer : result (list Order)) (st : State)
  : State * list Effect :=
  match user with
  | None => (st, [ToastError "Please login to view orders"; Navigate "/"])
  | Some _ => loadOrders answer st
  end.

(** The badge of an order: its class, its icon and the status as text. *)
Record Badge := mkBadge {
  badgeClass : string;
  badgeIcon : OrdersPage.Element;
  badgeText : string
}.

Definition badge (o : Order) : Badge :=
  mkBadge (OrdersPage.getStatusColor (status o) +:+ " border")%string
          (OrdersPage.getStatusIcon (status o))
          (status o).

(** What the component renders: the spinner, "No orders yet", or one card
    per order, here its id, badge and total. *)
Inductive View :=
| Spinner
| NoOrders
| Cards (cards : list (N * Badge * option string)).

Definition view (st : State) : View :=
  if loading st then Spinner
  else if (length (orders st) =? 0)%nat then NoOrders
  else Cards (map (fun o => (order_id o, badge o, Totals.shownAmount (total_amount o)))
                  (orders st)).

End OrdersLoad.

Module HomeLoad.

(** [loadRestaurants], given the answer to [GET /restaurants]: the new
    list, and what goes to the console. *)
Definition loadRestaurants (answer : result (list HomePage.Restaurant))
  (restaurants : list HomePage.Restaurant) : list HomePage.Restaurant * list string :=
  match answer with
  | Ok data => (data, [])
  | Err _ => (restaurants, ["Error loading restaurants:"%string])
  end.

(** The heading above the grid. *)
Definition heading (selectedCuisine : string) : string :=
  if String.eqb selectedCuisine "All" then "All Restaurants"
  else (selectedCuisine +:+ " Restaurants")%string.

(** What the grid section renders: the heading, and the cards or "No
    restaurants found matching your search." *)
Inductive Grid :=
| NoResults (title : string)
| Results (title : string) (cards : list HomePage.Restaurant).

Definition grid (restaurants : list HomePage.Restaurant) (searchQuery selectedCuisine : string)
  : Grid :=
  let shown := HomePage.filteredRestaurants restaurants searchQuery selectedCuisine in
  if (length shown =? 0)%nat then NoResults (heading selectedCuisine)
  else Results (heading selectedCuisine) shown.

End HomeLoad.

(** ** The restaurant page as the visitor uses it *)

Module RestaurantView.
Import Ui.

(** The whole state of the component: what loading filled, and the user,
    the pending quantities and the calls in flight of the selectors. *)
Record State := mkState {
  loaded : RestaurantMenu.State;
  user : option string;
  quantities : gmap string Z;
  awaiting : list RestaurantPage.Awaiting
}.

(** The state the handlers of the selectors see, for the restaurant
    shown. *)
Definition selectors (st : State) (r : HomePage.Restaurant) : RestaurantPage.State :=
  RestaurantPage.mkState (user st) (HomePage.id r) (quantities st) (awaiting st).

Definition withSelectors (st : State) (s : RestaurantPage.State) : State :=
  mkState (loaded st) (user st) (RestaurantPage.quantities s) (RestaurantPage.awaiting s).

Definition withCategory (st : State) (category : string) : State :=
  mkState (RestaurantMenu.mkState (RestaurantMenu.restaurant (loaded st))
                                  (RestaurantMenu.menuItems (loaded st))
                                  category
                                  (RestaurantMenu.loading (loaded st)))
          (user st) (quantities st) (awaiting st).

(** What the visitor can do: choose a tab, use the selector or the cart
    button of the [i]-th card shown; and the answer to the [k]-th call in
    flight. *)
Inductive Click :=
| Tab (category : string)
| Minus (i : nat)
| Plus (i : nat)
| Add (i : nat)
| Answer (k : nat) (answer : result unit).

(** A click reaches its handler when the element is rendered: a tab when
    it is one of the categories, the selector and the cart button of a card
    when the item is available ([item.available && ...]). *)
Definition click (st : State) (c : Click) : State * list Effect :=
  match RestaurantMenu.view (loaded st) with
  | RestaurantMenu.Shown r tabs shown =>
      let handle (e : RestaurantPage.Event) :=
        let (s, out) := RestaurantPage.step (selectors st r) e in
        (withSelectors st s, out) in
      let onCard (i : nat) (e : RestaurantMenu.MenuEntry -> RestaurantPage.Event) :=
        match shown !! i with
        | Some item => if RestaurantMenu.available item then handle (e item) else (st, [])
        | None => (st, [])
        end in
      match c with
      | Tab category =>
          if existsb (String.eqb category) tabs then (withCategory st category, [])
          else (st, [])
      | Minus i =>
          onCard i (fun item =>
                      RestaurantPage.Clicked (RestaurantMenu.id item) RestaurantPage.Decrease)
      | Plus i =>
          onCard i (fun item =>
                      RestaurantPage.Clicked (RestaurantMenu.id item) RestaurantPage.Increase)
      | Add i => onCard i (fun item => RestaurantPage.AddToCart (RestaurantMenu.asMenuItem item))
      | Answer k answer => handle (RestaurantPage.Answered k answer)
      end
  | _ => (st, [])
  end.

(** The state after a sequence of clicks, and everything done on the way. *)
Fixpoint clicks (st : State) (cs : list Click) : State * list Effect :=
  match cs with
  | [] => (st, [])
  | c :: cs' =>
      let (st', out) := click st c in
      let (st'', out') := clicks st' cs' in
      (st'', out ++ out')
  end.

(** The page once loading is over, before any click. *)
Definition opened (loaded : RestaurantMenu.State) (user : option string) : State :=
  mkState loaded user ∅ [].

End RestaurantView.

(** ** Notions the properties compare the code with *)

Module Reference.

(** The exact sum of price times quantity, in the rationals. *)
Definition exactSubtotal (c : Cart) : option Q :=
  fold_right
    (fun it acc =>
       match Js.exact (price it), acc with
       | Some p, Some a => Some (Qplus (Qmult p (inject_Z (quantity it))) a)
       | _, _ => None
       end)
    (Some 0%Q) (items c).

(** Two amounts are the same rational number. *)
Definition sameAmount (x y : option Q) : Prop :=
  match x, y with
  | Some a, Some b => Qeq a b
  | None, None => True
  | _, _ => False
  end.

(** Three times 9.99: the subtotal of this cart shows the drift. *)
Definition driftCart : Cart :=
  mkCart [mkCartItem "m1" "Pad Thai" 9.99%float 3 ""] (Some "r1"%string).

(** The failure of the error taxonomy that a message of the cart page
    stands for. *)
Definition reported (e : Ui.Effect) : option Error :=
  match e with
  | Ui.ToastError message =>
      if String.eqb message "Please enter delivery address" then Some MissingAddressError
      else if String.eqb message "Your cart is empty" then Some EmptyCartError
      else None
  | Ui.ToastFailure err _ => Some err
  | _ => None
  end.

(** The statuses of the order state machine. *)
Definition knownStatuses : list string := ["placed"; "preparing"; "delivered"]%string.

(** A delivery address that is empty after trimming. *)
Definition blank (address : string) : Prop := Js.trim address = EmptyString.

(** A page that still shows a line for m1 which the server's cart lost (it
    was removed from another tab), next to a line for m2. *)
Definition staleWorld : CartPage.World :=
  let m1 := mkCartItem "m1" "Burger" 9.99%float 1 "" in
  let m2 := mkCartItem "m2" "Fries" 3.5%float 2 "" in
  CartPage.mkWorld
    (Server.mk (mkCart [m2] (Some "r1"%string)) [] 0%N ∅ ∅)
    (CartPage.mkState (mkCart [m1; m2] (Some "r1"%string)) "123 Main St" false false)
    [].

(** A page with an empty cart and the given delivery address. *)
Definition emptyCartWorld (address : string) : CartPage.World :=
  CartPage.mkWorld
    (Server.mk emptyCart [] 0%N ∅ ∅)
    (CartPage.mkState emptyCart address false false)
    [].

(** Every stored pending quantity is at least 1. *)
Definition atLeastOne (quantities : gmap string Z) : Prop :=
  map_Forall (fun _ v => 1 <= v) quantities.

(** The invariant of the page: the stored quantities and those captured by
    the calls in flight are at least 1. *)
Definition selectorsOk (st : RestaurantPage.State) : Prop :=
  atLeastOne (RestaurantPage.quantities st)
  /\ Forall (fun call => atLeastOne (RestaurantPage.captured call))
            (RestaurantPage.awaiting st).

(** A signed-in user has a token in the storage, and [App] is past its
    loading. *)
Definition sessionOk (st : Session.State) : Prop :=
  (Session.user st <> None -> is_Some (Session.localStorage st !! "token"%string))
  /\ Session.appLoading st = false.

(** An effect that is not a request to update a quantity below 1. *)
Definition updateOk (e : Ui.Effect) : Prop :=
  match e with
  | Ui.Call (Server.PutCartUpdate _ q) => 1 <= q
  | _ => True
  end.

(** A handler only adds to the log, and what it adds is [updateOk]. *)
Definition appendsOk {A} (m : CartPage.M A) : Prop :=
  forall w, exists l, CartPage.log (snd (m w)) = CartPage.log w ++ l /\ Forall updateOk l.

(** Order requests in flight and the [placing] flag go together. *)
Definition flightOk (st : CartPageOn.Awaited) : Prop :=
  length (CartPageOn.inFlight st)
  = if CartPage.placing (CartPage.page (CartPageOn.world st)) then 1%nat else 0%nat.

(** The class of a status for its rendering: itself when it is one of the
    three known statuses, none otherwise. *)
Definition statusClass (status : string) : option string :=
  if existsb (String.eqb status) knownStatuses then Some status else None.

(** A request to add to the cart names an available item of the menu, the
    restaurant shown, and a quantity of at least 1. *)
Definition addOk (loaded : RestaurantMenu.State) (e : Ui.Effect) : Prop :=
  match e with
  | Ui.Call (Server.PostCartAdd m q rid) =>
      1 <= q
      /\ (exists item, In item (RestaurantMenu.menuItems loaded)
                       /\ RestaurantMenu.id item = m
                       /\ RestaurantMenu.available item = true)
      /\ (exists r, RestaurantMenu.restaurant loaded = Some r /\ HomePage.id r = rid)
  | _ => True
  end.

(** The invariant of the restaurant page in use: what loading filled stays,
    but for the tab, and the selectors are in order. *)
Definition viewOk (loaded : RestaurantMenu.State) (st : RestaurantView.State) : Prop :=
  RestaurantMenu.restaurant (RestaurantView.loaded st) = RestaurantMenu.restaurant loaded
  /\ RestaurantMenu.menuItems (RestaurantView.loaded st) = RestaurantMenu.menuItems loaded
  /\ atLeastOne (RestaurantView.quantities st)
  /\ Forall (fun call => atLeastOne (RestaurantPage.captured call))
            (RestaurantView.awaiting st).




(** A failure of [placeOrder] for the reason the contract gives for it:
    [EmptyCartError] on a cart without items, [MissingAddressError] on a
    delivery address that is blank. *)
Definition refused (p : CartPage.State) (e : Error) : Prop :=
  (e = EmptyCartError /\ items (CartPage.cart p) = [])
  \/ (e = MissingAddressError /\ blank (CartPage.deliveryAddress p)).

(** A failure of [add] for the reason the contract gives for it:
    [CrossRestaurantError] on a cart that is non-empty and bound to another
    restaurant, [InvalidQuantityError] on a quantity below 1. *)
Definition rejected (c : Cart) (q : Z) (rid : string) (e : Error) : Prop :=
  (e = CrossRestaurantError
   /\ items c <> [] /\ exists r, restaurant_id c = Some r /\ r <> rid)
  \/ (e = InvalidQuantityError /\ q < 1).

(** [q] occurs in [s]: [s] is some text, then [q], then some text. *)
Definition occursIn (q s : string) : Prop :=
  exists before after, s = before +:+ q +:+ after.







End Reference.

(** * Properties *)

(** ** The totals of the cart *)

Section TotalsFacts.
Import Totals Reference.

Lemma total_nil (r : option string) : total (mkCart [] r) = 0%float.
Proof. reflexivity. Qed.

Lemma total_snoc (its : list CartItem) (it : CartItem) (r r' : option string) :
  total (mkCart (its ++ [it]) r')
  = (total (mkCart its r) + price it * Js.of_Z (quantity it))%float.
Proof.
  unfold total. cbn [items].
  rewrite fold_left_app. reflexivity.
Qed.

Lemma total_lines (c1 c2 : Cart) :
  map (fun it => (price it, quantity it)) (items c1)
  = map (fun it => (price it, quantity it)) (items c2) ->
  total c1 = total c2.
Proof.
  unfold total.
  generalize 0%float as acc.
  generalize (items c2) as l2.
  induction (items c1) as [|a l1 IH]; intros [|b l2] acc Hmap; cbn in Hmap; try discriminate.
  - reflexivity.
  - injection Hmap as Hp Hq Hrest.
    cbn [fold_left]. rewrite Hp, Hq. apply IH, Hrest.
Qed.

Lemma drift_exact :
  exists a b, Js.exact (total driftCart) = Some a /\ exactSubtotal driftCart = Some b
              /\ ~ Qeq a b /\ ~ Qeq a (2997 # 100).
Proof.
  eexists; eexists.
  split; [vm_compute; reflexivity|].
  split; [vm_compute; reflexivity|].
  split; intro H; apply Qeq_bool_iff in H; vm_compute in H; discriminate.
Qed.

(** C3: [computeTotals] returns as subtotal the running sum, from 0 and in
    the order of the list, of stored price times quantity (it depends on
    the cart only through the prices and quantities stored on its items), as
    delivery fee the fixed non-zero 3.99 when the subtotal is positive and 0
    otherwise, and as grand total the subtotal plus the fee; one item
    priced 12.00 at quantity 1 gives 12.00, 3.99 and 15.99, as numbers and
    as displayed, and the empty cart gives fee 0, displayed 0.00. Sums and
    products are those of JavaScript numbers. *)
Theorem computeTotals_subtotal_fee_grand :
  forall (its : list CartItem) (it : CartItem) (r : option string) (c c' : Cart),
    subtotal (computeTotals (mkCart [] r)) = 0%float
    /\ subtotal (computeTotals (mkCart (its ++ [it]) r))
       = (subtotal (computeTotals (mkCart its r)) + price it * Js.of_Z (quantity it))%float
    /\ (map (fun i => (price i, quantity i)) (items c)
        = map (fun i => (price i, quantity i)) (items c') ->
        computeTotals c = computeTotals c')
    /\ ((0 <? subtotal (computeTotals c))%float = true -> fee (computeTotals c) = 3.99%float)
    /\ ((0 <? subtotal (computeTotals c))%float = false -> fee (computeTotals c) = 0%float)
    /\ (3.99 =? 0)%float = false
    /\ grand (computeTotals c) = (subtotal (computeTotals c) + fee (computeTotals c))%float
    /\ computeTotals (mkCart [mkCartItem "m1" "Margherita" 12.00%float 1 ""] (Some "r1"%string))
       = mkTotals 12.00%float 3.99%float 15.99%float
    /\ orderSummary (mkCart [mkCartItem "m1" "Margherita" 12.00%float 1 ""] (Some "r1"%string))
       = [Some "$12.00"; Some "$3.99"; Some "$15.99"]%string
    /\ fee (computeTotals emptyCart) = 0.00%float
    /\ shownAmount (fee (computeTotals emptyCart)) = Some "$0.00"%string.
Proof.
  intros its it r c c'.
  split; [apply total_nil|].
  split; [apply total_snoc|].
  split.
  { intros Hlines. unfold computeTotals, grandTotal, deliveryFee.
    rewrite (total_lines c c' Hlines). reflexivity. }
  cbn [computeTotals subtotal fee grand]. unfold grandTotal, deliveryFee.
  split; [intros ->; reflexivity|].
  split; [intros ->; reflexivity|].
  repeat split.
Qed.

(** C4, as stated, fails: three portions at 9.99 give a subtotal that is
    neither the exact product of the stored price by 3 nor 29.97. *)
Lemma subtotal_drifts_on_9_99_times_3 :
  ~ sameAmount (Js.exact (total driftCart)) (exactSubtotal driftCart)
  /\ ~ sameAmount (Js.exact (total driftCart)) (Some (2997 # 100)).
Proof.
  destruct drift_exact as (a & b & Ha & Hb & Hab & Hdec).
  rewrite Ha, Hb. cbn [sameAmount]. split; assumption.
Qed.

(** C4, amended: the totals are computed on JavaScript numbers (binary64),
    not in a decimal-safe representation. The subtotal is the accumulation,
    from 0 and in the order of the list, of the binary64 products price times
    quantity, each sum and product rounded to a binary64 value; the fee and
    the grand total are computed from that unrounded subtotal, with no
    two-decimal rounding in between; the order summary applies [toFixed(2)]
    to each of the three numbers, and nothing else does; and the subtotal can
    differ from the exact rational sum (three times 9.99 is
    29.969999999999999, displayed 29.97). *)
Theorem totals_are_binary64_accumulation :
  forall (its : list CartItem) (it : CartItem) (r : option string),
    total (mkCart [] r) = 0%float
    /\ total (mkCart (its ++ [it]) r)
       = (total (mkCart its r) + price it * Js.of_Z (quantity it))%float
    /\ deliveryFee (mkCart its r)
       = (if (0 <? total (mkCart its r))%float then 3.99 else 0)%float
    /\ grandTotal (mkCart its r)
       = (total (mkCart its r) + deliveryFee (mkCart its r))%float
    /\ orderSummary (mkCart its r)
       = [(fun text => "$" +:+ text)%string <$> Js.toFixed2 (total (mkCart its r));
          (fun text => "$" +:+ text)%string <$> Js.toFixed2 (deliveryFee (mkCart its r));
          (fun text => "$" +:+ text)%string <$> Js.toFixed2 (grandTotal (mkCart its r))]
    /\ (exists c, ~ sameAmount (Js.exact (total c)) (exactSubtotal c))
    /\ total driftCart = 29.969999999999999%float
    /\ orderSummary driftCart = [Some "$29.97"; Some "$3.99"; Some "$33.96"]%string.
Proof.
  intros its it r.
  split; [apply total_nil|].
  split; [apply total_snoc|].
  split; [reflexivity|].
  split; [reflexivity|].
  split; [reflexivity|].
  split.
  { exists driftCart.
    destruct drift_exact as (a & b & Ha & Hb & Hab & _).
    rewrite Ha, Hb. exact Hab. }
  split; vm_compute; reflexivity.
Qed.

End TotalsFacts.

(** ** Rendering of an order's status *)

Section StatusFacts.
Import OrdersPage Reference.

Lemma eqb_neq_false (s t : string) : s <> t -> String.eqb s t = false.
Proof. intros H. apply String.eqb_neq, H. Qed.

Lemma unknown_status (status : string) :
  ~ In status knownStatuses ->
  String.eqb status "placed" = false
  /\ String.eqb status "preparing" = false
  /\ String.eqb status "delivered" = false.
Proof.
  intros Hnot. cbn [knownStatuses In] in Hnot.
  repeat split; apply eqb_neq_false; intros ->; apply Hnot; tauto.
Qed.

(** C8: for every status string the two rendering functions return one of
    their icons and one of their colors, and for a status outside placed,
    preparing and delivered they return the default icon and the default
    neutral color; the three known statuses get their own icon and color. *)
Theorem status_rendering_total_with_default (status : string) :
  In (getStatusIcon status)
     [mkElement Clock "w-5 h-5"; mkElement Package "w-5 h-5"; mkElement CheckCircle "w-5 h-5"]
  /\ In (getStatusColor status)
        ["bg-blue-100 text-blue-700 border-blue-300";
         "bg-yellow-100 text-yellow-700 border-yellow-300";
         "bg-green-100 text-green-700 border-green-300";
         "bg-gray-100 text-gray-700 border-gray-300"]%string
  /\ (~ In status knownStatuses ->
      getStatusIcon status = mkElement Package "w-5 h-5"
      /\ getStatusColor status = "bg-gray-100 text-gray-700 border-gray-300"%string)
  /\ map getStatusIcon knownStatuses
     = [mkElement Clock "w-5 h-5"; mkElement Package "w-5 h-5"; mkElement CheckCircle "w-5 h-5"]
  /\ map getStatusColor knownStatuses
     = ["bg-blue-100 text-blue-700 border-blue-300";
        "bg-yellow-100 text-yellow-700 border-yellow-300";
        "bg-green-100 text-green-700 border-green-300"]%string.
Proof.
  split; [|split; [|split; [|split; reflexivity]]].
  - unfold getStatusIcon.
    destruct (String.eqb status "placed"); [cbn; tauto|].
    destruct (String.eqb status "preparing"); [cbn; tauto|].
    destruct (String.eqb status "delivered"); cbn; tauto.
  - unfold getStatusColor.
    destruct (String.eqb status "placed"); [cbn; tauto|].
    destruct (String.eqb status "preparing"); [cbn; tauto|].
    destruct (String.eqb status "delivered"); cbn; tauto.
  - intros Hnot.
    destruct (unknown_status status Hnot) as (H1 & H2 & H3).
    unfold getStatusIcon, getStatusColor.
    rewrite H1, H2, H3. split; reflexivity.
Qed.

Lemma status_rendering_cancelled :
  ~ In "cancelled"%string knownStatuses
  /\ getStatusIcon "cancelled" = mkElement Package "w-5 h-5"
  /\ getStatusColor "cancelled" = "bg-gray-100 text-gray-700 border-gray-300"%string.
Proof.
  assert (Hnot : ~ In "cancelled"%string knownStatuses).
  { cbn. intros [H|[H|[H|[]]]]; discriminate H. }
  split; [exact Hnot|].
  exact (proj1 (proj2 (proj2 (status_rendering_total_with_default "cancelled"))) Hnot).
Defined.

End StatusFacts.

(** ** Search on the home page *)

Section SearchFacts.
Import HomePage Reference.

Lemma startsWith_prefix (s q : string) :
  Js.startsWith s q = true <-> exists after, s = (q +:+ after)%string.
Proof.
  revert s. induction q as [|b q IH]; intros s.
  - split; [intros _; exists s; reflexivity | reflexivity].
  - cbn [Js.startsWith]. destruct s as [|a s].
    + split; [discriminate | intros [after H]; discriminate H].
    + rewrite andb_true_iff, IH. split.
      * intros [Hab [after ->]]. apply Ascii.eqb_eq in Hab as ->.
        exists after. reflexivity.
      * intros [after H]. cbn in H. injection H as -> ->.
        split; [apply Ascii.eqb_refl | exists after; reflexivity].
Qed.

Lemma includes_occursIn (s q : string) :
  Js.includes s q = true <-> occursIn q s.
Proof.
  unfold occursIn.
  induction s as [|a s IH]; cbn [Js.includes]; rewrite orb_true_iff, startsWith_prefix.
  - split.
    + intros [[after H]|H]; [|discriminate H].
      exists EmptyString, after. exact H.
    + intros (before & after & H). left.
      destruct before as [|x before]; [|discriminate H].
      exists after. exact H.
  - rewrite IH. split.
    + intros [[after H]|(before & after & H)].
      * exists EmptyString, after. exact H.
      * exists (String a before), after. cbn. rewrite H. reflexivity.
    + intros (before & after & H).
      destruct before as [|x before].
      * left. exists after. exact H.
      * right. cbn in H. injection H as _ H.
        exists before, after. exact H.
Qed.



Lemma filter_keeps_all_in {A} (f : A -> bool) (l : list A) :
  (forall x, In x l -> f x = true) -> List.filter f l = l.
Proof.
  induction l as [|x xs IH]; intros Hall; [reflexivity|].
  cbn [List.filter]. rewrite (Hall x (or_introl eq_refl)), IH; [reflexivity|].
  intros y Hy. apply Hall. right. exact Hy.
Qed.

Lemma append_assoc (a b c : string) : ((a +:+ b) +:+ c = a +:+ (b +:+ c))%string.
Proof.
  induction a as [|x a IH]; [reflexivity|].
  change (String x ((a +:+ b) +:+ c) = String x (a +:+ (b +:+ c))).
  rewrite IH. reflexivity.
Qed.

Lemma toLowerCase_app (a b : string) :
  Js.toLowerCase (a +:+ b) = (Js.toLowerCase a +:+ Js.toLowerCase b)%string.
Proof.
  induction a as [|x a IH]; [reflexivity|].
  change (String (Js.lowerChar x) (Js.toLowerCase (a +:+ b))
          = String (Js.lowerChar x) (Js.toLowerCase a +:+ Js.toLowerCase b)).
  rewrite IH. reflexivity.
Qed.












End SearchFacts.

(** ** The quantity selectors of the restaurant page *)

Section SelectorFacts.
Import RestaurantPage Reference.

Lemma shown_unset (itemId : string) : shown ∅ itemId = 1.
Proof. unfold shown. rewrite lookup_empty. reflexivity. Qed.

Lemma shown_atLeastOne (quantities : gmap string Z) (itemId : string) :
  atLeastOne quantities -> 1 <= shown quantities itemId.
Proof.
  intros Hq. unfold shown, Js.orDefault.
  destruct (quantities !! itemId) as [v|] eqn:Hv; [|lia].
  apply (map_Forall_lookup_1 _ _ _ _ Hq) in Hv.
  destruct (Z.eqb_spec v 0); lia.
Qed.

Lemma updateQuantity_clamps (quantities : gmap string Z) (itemId : string) (d : Z) :
  shown (updateQuantity quantities itemId d) itemId
  = Z.max 1 (shown quantities itemId + d).
Proof.
  unfold updateQuantity, shown at 1. rewrite lookup_insert_eq.
  unfold Js.orDefault at 1. fold (shown quantities itemId).
  destruct (Z.eqb_spec (Z.max 1 (shown quantities itemId + d)) 0); [lia|reflexivity].
Qed.

Lemma updateQuantity_atLeastOne (quantities : gmap string Z) (itemId : string) (d : Z) :
  atLeastOne quantities -> atLeastOne (updateQuantity quantities itemId d).
Proof.
  intros Hq. unfold updateQuantity. apply map_Forall_insert_2; [lia|exact Hq].
Qed.

Lemma initial_ok (u : option string) (rid : string) : selectorsOk (initial u rid).
Proof. split; [apply map_Forall_empty | constructor]. Qed.

Lemma step_ok (st : State) (e : Event) :
  selectorsOk st ->
  selectorsOk (fst (step st e))
  /\ forall out q, In out (snd (step st e)) -> sentQuantity out = Some q -> 1 <= q.
Proof.
  intros [Hq Hcalls]. destruct e as [itemId c|item|k answer]; cbn [step].
  - split; [|intros out q []].
    split; [apply updateQuantity_atLeastOne, Hq | exact Hcalls].
  - unfold handleAddToCart. destruct (user st) as [u|]; cbn [fst snd].
    + split.
      * split; [exact Hq|]. cbn [awaiting quantities].
        apply Forall_app. split; [exact Hcalls|]. constructor; [exact Hq|constructor].
      * intros out q [<-|[]] Hsent. cbn in Hsent. injection Hsent as <-.
        apply (shown_atLeastOne _ (id item) Hq).
    + split; [split; assumption|].
      intros out q [<-|[<-|[]]] Hsent; discriminate Hsent.
  - unfold settle. destruct (awaiting st !! k) as [call|] eqn:Hk; cbn [fst snd].
    + assert (Hcall : atLeastOne (captured call)).
      { rewrite Forall_lookup in Hcalls. exact (Hcalls k call Hk). }
      assert (Hrest : Forall (fun call => atLeastOne (captured call))
                             (take k (awaiting st) ++ drop (S k) (awaiting st))).
      { apply Forall_app. split; [apply Forall_take | apply Forall_drop]; exact Hcalls. }
      destruct answer as [[]|err]; cbn [fst snd].
      * split.
        -- split; [|exact Hrest]. cbn [quantities].
           apply map_Forall_insert_2; [lia|exact Hcall].
        -- intros out q [<-|[]] Hsent. discriminate Hsent.
      * split; [split; [exact Hq|exact Hrest]|].
        intros out q [<-|[]] Hsent. discriminate Hsent.
    + split; [split; assumption|]. intros out q [].
Qed.

Lemma steps_ok (es : list Event) (st : State) :
  selectorsOk st ->
  selectorsOk (fst (steps st es))
  /\ forall out q, In out (snd (steps st es)) -> sentQuantity out = Some q -> 1 <= q.
Proof.
  revert st. induction es as [|e es IH]; intros st Hst; cbn [steps].
  - split; [exact Hst|]. intros out q [].
  - destruct (step_ok st e Hst) as [Hst' Hout].
    destruct (step st e) as [st' out1]. cbn [fst snd] in Hst', Hout.
    destruct (IH st' Hst') as [Hst'' Hout'].
    destruct (steps st' es) as [st'' out2]. cbn [fst snd] in *.
    split; [exact Hst''|].
    intros out q Hin Hsent. apply in_app_or in Hin as [Hin|Hin]; eauto.
Qed.

(** C9: starting from the page as it mounts, after every sequence of
    clicks on the selectors, add-to-cart clicks and answers to the calls in
    flight, the quantity shown for every item is at least 1, and every request
    to add to the cart sent on the way carries a quantity of at least 1;
    [updateQuantity] stores max(1, current + delta), and an unset quantity is
    read as 1. *)
Theorem pending_quantity_at_least_one
  (u : option string) (rid : string) (es : list Event) (itemId : string) :
  1 <= shown (quantities (fst (steps (initial u rid) es))) itemId
  /\ (forall out q, In out (snd (steps (initial u rid) es)) ->
                    sentQuantity out = Some q -> 1 <= q)
  /\ (forall (quantities : gmap string Z) (d : Z),
        shown (updateQuantity quantities itemId d) itemId
        = Z.max 1 (shown quantities itemId + d))
  /\ shown ∅ itemId = 1.
Proof.
  destruct (steps_ok es (initial u rid) (initial_ok u rid)) as [[Hq _] Hout].
  split; [apply shown_atLeastOne, Hq|].
  split; [exact Hout|].
  split; [intros q d; apply updateQuantity_clamps | apply shown_unset].
Qed.

(** Three clicks on "-", two on "+", then the cart button: the selector
    never shows less than 1 and the request carries 3. *)
Example selector_run :
  let burger := mkMenuItem "m1" "Burger" 9.99%float true in
  snd (steps (initial (Some "ada"%string) "r1")
             [Clicked "m1" Decrease; Clicked "m1" Decrease; Clicked "m1" Decrease;
              Clicked "m1" Increase; Clicked "m1" Increase; AddToCart burger])
  = [Ui.Call (Server.PostCartAdd "m1" 3 "r1")].
Proof. vm_compute. reflexivity. Qed.

End SelectorFacts.

(** ** The Cart Manager *)

Section CartManagerFacts.
Import CartManager.

Lemma contains_false (c : Cart) (m : string) :
  contains c m = false <-> forall it, In it (items c) -> hasId m it = false.
Proof.
  unfold contains. split.
  - intros H it Hin. destruct (hasId m it) eqn:Hid; [|reflexivity].
    rewrite <- H. symmetry. apply existsb_exists. exists it. split; assumption.
  - intros H. apply not_true_is_false. intros Hex.
    apply existsb_exists in Hex as (it & Hin & Hid). rewrite (H it Hin) in Hid. discriminate.
Qed.

Lemma contains_true (c : Cart) (m : string) :
  contains c m = true <-> exists it, In it (items c) /\ menu_item_id it = m.
Proof.
  unfold contains. rewrite existsb_exists. unfold hasId.
  split; intros (it & Hin & H); exists it; (split; [exact Hin|]); apply String.eqb_eq, H.
Qed.

Lemma contains_remove (c : Cart) (m : string) : contains (remove c m) m = false.
Proof.
  unfold remove. destruct (contains c m) eqn:Hc; [|exact Hc].
  apply contains_false. cbn [items]. intros it Hin.
  apply filter_In in Hin as [_ Hneg]. apply negb_true_iff, Hneg.
Qed.

Lemma remove_absent (c : Cart) (m : string) : contains c m = false -> remove c m = c.
Proof. intros H. unfold remove. rewrite H. reflexivity. Qed.

Lemma remove_idempotent (c : Cart) (m : string) : remove (remove c m) m = remove c m.
Proof. apply remove_absent, contains_remove. Qed.

Lemma items_remove (c : Cart) (m : string) :
  items (remove c m) = List.filter (fun it => negb (hasId m it)) (items c).
Proof.
  unfold remove. destruct (contains c m) eqn:Hc; [reflexivity|].
  symmetry. apply filter_keeps_all_in. intros it Hin.
  rewrite (proj1 (contains_false c m) Hc it Hin). reflexivity.
Qed.

Lemma remove_emptied (c : Cart) (m : string) :
  contains c m = true -> items (remove c m) = [] -> restaurant_id (remove c m) = None.
Proof.
  unfold remove. intros ->. cbn [items restaurant_id]. intros ->. reflexivity.
Qed.

(** What [removeItem] does: the item is removed behind the endpoint, the
    cart is loaded again, and the page says so. *)
Lemma removeItem_run (x : string) (w : CartPage.World) :
  CartPage.removeItem x w
  = (tt,
     CartPage.mkWorld
       (Server.withCart (CartPage.server w) (remove (Server.cart (CartPage.server w)) x))
       (CartPage.mkState (remove (Server.cart (CartPage.server w)) x)
                         (CartPage.deliveryAddress (CartPage.page w))
                         false
                         (CartPage.placing (CartPage.page w)))
       (((CartPage.log w ++ [Ui.Call (Server.DeleteCartRemove x)])
         ++ [Ui.Call Server.GetCart])
        ++ [Ui.ToastSuccess "Item removed from cart"])).
Proof. reflexivity. Qed.

(** C7: [remove] is idempotent, removing an absent item changes nothing
    and the endpoint answers without an error, the item is absent
    afterwards while the other lines stay, and a cart emptied by a removal
    has no restaurant id. Two removals from the page leave the server and the
    page as one does. *)
Theorem remove_idempotent_and_resets (c : Cart) (x : string) (s : Server.t) (w : CartPage.World) :
  remove (remove c x) x = remove c x
  /\ (contains c x = false -> remove c x = c)
  /\ (exists c', Server.deleteCartRemove s x = (Ok c', Server.withCart s c'))
  /\ contains (remove c x) x = false
  /\ items (remove c x) = List.filter (fun it => negb (hasId x it)) (items c)
  /\ (contains c x = true -> items (remove c x) = [] -> restaurant_id (remove c x) = None)
  /\ CartPage.server (CartPage.run (CartPage.removeItem x) (CartPage.run (CartPage.removeItem x) w))
     = CartPage.server (CartPage.run (CartPage.removeItem x) w)
  /\ CartPage.page (CartPage.run (CartPage.removeItem x) (CartPage.run (CartPage.removeItem x) w))
     = CartPage.page (CartPage.run (CartPage.removeItem x) w).
Proof.
  split; [apply remove_idempotent|].
  split; [apply remove_absent|].
  split; [eexists; reflexivity|].
  split; [apply contains_remove|].
  split; [apply items_remove|].
  split; [apply remove_emptied|].
  unfold CartPage.run. rewrite !removeItem_run. cbn [snd CartPage.server CartPage.page
    Server.cart Server.withCart Server.orders Server.now Server.menu Server.restaurants
    CartPage.deliveryAddress CartPage.placing].
  rewrite remove_idempotent. split; reflexivity.
Qed.

Lemma remove_idempotent_and_resets_witness :
  let burger := mkCartItem "m1" "Burger" 9.99%float 2 "" in
  let c := mkCart [burger] (Some "r1"%string) in
  remove c "m1" = emptyCart
  /\ remove (remove c "m1") "m1" = emptyCart
  /\ remove c "m2" = c.
Proof.
  cbn zeta.
  pose (c := mkCart [mkCartItem "m1" "Burger" 9.99%float 2 ""] (Some "r1"%string)).
  destruct (remove_idempotent_and_resets c "m1" (Server.mk c [] 0%N ∅ ∅) Reference.staleWorld)
    as (Hidem & _).
  destruct (remove_idempotent_and_resets c "m2" (Server.mk c [] 0%N ∅ ∅) Reference.staleWorld)
    as (_ & Habsent & _).
  split; [reflexivity|].
  split; [|exact (Habsent eq_refl)].
  transitivity (remove c "m1"); [exact Hidem | reflexivity].
Defined.

Lemma crossRestaurant_spec (c : Cart) (rid : string) :
  crossRestaurant c rid = true
  <-> items c <> [] /\ exists r, restaurant_id c = Some r /\ r <> rid.
Proof.
  unfold crossRestaurant.
  destruct (items c) as [|it its]; [|destruct (restaurant_id c) as [r|]].
  - split; [discriminate | intros [H _]; contradiction].
  - rewrite negb_true_iff, String.eqb_neq. split.
    + intros Hne. split; [discriminate | exists r; split; [reflexivity | exact Hne]].
    + intros (_ & r' & Hr' & Hne). injection Hr' as <-. exact Hne.
  - split; [discriminate | intros (_ & r & Hr & _); discriminate Hr].
Qed.

Lemma hasId_withQuantity (f : Z -> Z) (m m' : string) (it : CartItem) :
  hasId m' (withQuantity f m it) = hasId m' it.
Proof. unfold withQuantity. destruct (hasId m it); reflexivity. Qed.

Lemma find_withQuantity (f : Z -> Z) (m : string) (l : list CartItem) :
  List.find (hasId m) (map (withQuantity f m) l)
  = withQuantity f m <$> List.find (hasId m) l.
Proof.
  induction l as [|it l IH]; [reflexivity|].
  cbn [map List.find]. rewrite hasId_withQuantity.
  destruct (hasId m it); [reflexivity | exact IH].
Qed.

Lemma find_other_withQuantity (f : Z -> Z) (m m' : string) (l : list CartItem) :
  m' <> m ->
  List.find (hasId m') (map (withQuantity f m) l) = List.find (hasId m') l.
Proof.
  intros Hne. induction l as [|it l IH]; [reflexivity|].
  cbn [map List.find]. rewrite hasId_withQuantity.
  destruct (hasId m' it) eqn:Hit; [|exact IH].
  unfold withQuantity. destruct (hasId m it) eqn:Hm; [|reflexivity].
  unfold hasId in Hit, Hm. apply String.eqb_eq in Hit, Hm. congruence.
Qed.

Lemma find_contains (c : Cart) (m : string) :
  contains c m = true <-> exists it, find c m = Some it.
Proof.
  unfold contains, find. induction (items c) as [|it l IH]; cbn [existsb List.find].
  - split; [discriminate | intros [it H]; discriminate H].
  - destruct (hasId m it); [split; eauto | exact IH].
Qed.

Lemma find_hasId (c : Cart) (m : string) (it : CartItem) :
  find c m = Some it -> menu_item_id it = m /\ In it (items c).
Proof.
  unfold find. intros H. apply find_some in H as [Hin Hid].
  split; [apply String.eqb_eq, Hid | exact Hin].
Qed.

(** The line for [m] with its quantity replaced. *)
Lemma withQuantity_found (f : Z -> Z) (m : string) (it : CartItem) :
  menu_item_id it = m ->
  withQuantity f m it
  = mkCartItem (menu_item_id it) (name it) (price it) (f (quantity it)) (image it).
Proof.
  intros H. unfold withQuantity, hasId. rewrite H, String.eqb_refl. reflexivity.
Qed.

(** C6: adding an item the cart already holds sums the quantities on its
    line (stored name and price stay, no line is added), so m1 at 2 and
    then m1 at 1 gives 3. [add] fails with [CrossRestaurantError] when the
    cart is non-empty and bound to another restaurant, whatever the quantity,
    and it fails whenever the quantity is below 1: with
    [InvalidQuantityError], or, on the requests for which the contract names
    both errors, with [CrossRestaurantError]. It never fails for another
    reason than these two, and never with an error whose condition does not
    hold. The restaurant page sends no quantity below 1, so none of its
    requests is one the contract names both errors for. *)
Theorem add_combines_and_rejects
  (c : Cart) (entry : MenuItem) (q : Z) (rid : string) (old : CartItem) :
  (crossRestaurant c rid = false -> 1 <= q -> find c (item_id entry) = Some old ->
   exists c',
     add c entry q rid = Ok c'
     /\ find c' (item_id entry)
        = Some (mkCartItem (menu_item_id old) (name old) (price old)
                           (quantity old + q) (image old))
     /\ length (items c') = length (items c)
     /\ (forall m', m' <> item_id entry -> find c' m' = find c m'))
  /\ (let burger := mkMenuItem "m1" "Burger" 9.99%float "" in
      exists c1 c2 line,
        add emptyCart burger 2 "r1" = Ok c1 /\ add c1 burger 1 "r1" = Ok c2
        /\ items c2 = [line] /\ menu_item_id line = "m1"%string /\ quantity line = 3)
  /\ (items c <> [] -> (exists r, restaurant_id c = Some r /\ r <> rid) ->
      add c entry q rid = Err CrossRestaurantError)
  /\ (q < 1 ->
      add c entry q rid = Err InvalidQuantityError
      \/ (add c entry q rid = Err CrossRestaurantError
          /\ items c <> [] /\ exists r, restaurant_id c = Some r /\ r <> rid))
  /\ (forall e, add c entry q rid = Err e -> Reference.rejected c q rid e)
  /\ (forall user restaurant events out m sent to,
        In out (snd (RestaurantPage.steps (RestaurantPage.initial user restaurant) events)) ->
        out = Ui.Call (Server.PostCartAdd m sent to) ->
        1 <= sent
        /\ (add c entry sent to = Err CrossRestaurantError
            <-> items c <> [] /\ exists r, restaurant_id c = Some r /\ r <> to)
        /\ add c entry sent to <> Err InvalidQuantityError).
Proof.
  split; [|split; [|split; [|split; [|split]]]].
  - intros Hcross Hq Hold. unfold add. rewrite Hcross.
    destruct (Z.ltb_spec q 1) as [Hlt|_]; [lia|].
    assert (Hc : contains c (item_id entry) = true) by (apply find_contains; eauto).
    rewrite Hc. eexists. split; [reflexivity|].
    destruct (find_hasId _ _ _ Hold) as [Hid _].
    unfold find in *. cbn [items].
    split; [|split].
    + rewrite find_withQuantity, Hold. cbn [fmap option_fmap option_map].
      rewrite (withQuantity_found _ _ _ Hid). reflexivity.
    + apply length_map.
    + intros m' Hne. apply find_other_withQuantity, Hne.
  - cbn zeta. eexists; eexists; eexists.
    split; [vm_compute; reflexivity|].
    split; [vm_compute; reflexivity|].
    split; [reflexivity|]. split; reflexivity.
  - intros Hne Hbound. unfold add.
    rewrite (proj2 (crossRestaurant_spec c rid) (conj Hne Hbound)). reflexivity.
  - intros Hq. unfold add. destruct (crossRestaurant c rid) eqn:Hcross.
    + right. split; [reflexivity|]. apply crossRestaurant_spec, Hcross.
    + left. destruct (Z.ltb_spec q 1) as [_|Hge]; [reflexivity | lia].
  - intros e. unfold add, Reference.rejected. destruct (crossRestaurant c rid) eqn:Hcross.
    + intros H. injection H as <-. left.
      split; [reflexivity|]. apply crossRestaurant_spec, Hcross.
    + destruct (Z.ltb_spec q 1) as [Hlt|_]; [|discriminate].
      intros H. injection H as <-. right. split; [reflexivity | exact Hlt].
  - intros user restaurant events out m sent to Hin ->.
    assert (Hsent : 1 <= sent).
    { destruct (steps_ok events _ (initial_ok user restaurant)) as [_ Hall].
      exact (Hall _ sent Hin eq_refl). }
    split; [exact Hsent|]. unfold add.
    destruct (crossRestaurant c to) eqn:Hcross.
    + split; [|discriminate].
      split; [intros _; apply crossRestaurant_spec, Hcross | reflexivity].
    + destruct (Z.ltb_spec sent 1) as [Hlt|_]; [lia|].
      split; [|discriminate].
      split; [discriminate|].
      intros Hbound. apply crossRestaurant_spec in Hbound. congruence.
Qed.

Lemma add_combines_and_rejects_witness :
  let burger := mkMenuItem "m1" "Burger" 9.99%float "" in
  let line := mkCartItem "m1" "Burger" 9.99%float 2 "" in
  let c := mkCart [line] (Some "r1"%string) in
  (exists c', add c burger 1 "r1" = Ok c'
              /\ find c' "m1" = Some (mkCartItem "m1" "Burger" 9.99%float 3 ""))
  /\ add c burger 1 "r2" = Err CrossRestaurantError
  /\ add c burger 0 "r1" = Err InvalidQuantityError
  /\ add c burger 0 "r2" = Err CrossRestaurantError.
Proof.
  cbn zeta.
  pose (burger := mkMenuItem "m1" "Burger" 9.99%float "").
  pose (line := mkCartItem "m1" "Burger" 9.99%float 2 "").
  pose (c := mkCart [line] (Some "r1"%string)).
  assert (Hbound : exists r, restaurant_id c = Some r /\ r <> "r2"%string).
  { exists "r1"%string. split; [reflexivity | discriminate]. }
  split; [|split; [|split]].
  - destruct (add_combines_and_rejects c burger 1 "r1" line) as (Hsum & _).
    destruct (Hsum eq_refl ltac:(lia) eq_refl) as (c' & Hadd & Hfind & _).
    exists c'. split; [exact Hadd | exact Hfind].
  - destruct (add_combines_and_rejects c burger 1 "r2" line) as (_ & _ & Hcross & _).
    apply Hcross; [discriminate | exact Hbound].
  - destruct (add_combines_and_rejects c burger 0 "r1" line) as (_ & _ & _ & Hinv & _).
    destruct (Hinv ltac:(lia)) as [Hadd|(_ & _ & r & Hr & Hne)]; [exact Hadd|].
    injection Hr as <-. contradiction Hne. reflexivity.
  - destruct (add_combines_and_rejects c burger 0 "r2" line) as (_ & _ & Hcross & _).
    apply Hcross; [discriminate | exact Hbound].
Defined.

(** What [updateQuantity] of the page does below 1: what [removeItem]
    does. *)
Lemma page_updateQuantity_below_one (m : string) (q : Z) :
  q < 1 -> CartPage.updateQuantity m q = CartPage.removeItem m.
Proof.
  intros Hq. unfold CartPage.updateQuantity.
  destruct (Z.ltb_spec q 1) as [_|Hge]; [reflexivity | lia].
Qed.

(** What [updateQuantity] of the page does from 1 on when the server's cart
    lacks the item: the request fails and the page says so. *)
Lemma page_updateQuantity_absent (m : string) (q : Z) (w : CartPage.World) :
  1 <= q -> contains (Server.cart (CartPage.server w)) m = false ->
  CartPage.run (CartPage.updateQuantity m q) w
  = CartPage.mkWorld (CartPage.server w) (CartPage.page w)
      ((CartPage.log w ++ [Ui.Call (Server.PutCartUpdate m q)])
       ++ [Ui.ToastError "Failed to update quantity"]).
Proof.
  intros Hq Habsent. unfold CartPage.run, CartPage.updateQuantity.
  destruct (Z.ltb_spec q 1) as [Hlt|_]; [lia|].
  unfold mbind, CartPage.M_bind, CartPage.api, Server.putCartUpdate, updateQuantity.
  destruct (Z.ltb_spec q 1) as [Hlt|_]; [lia|].
  rewrite Habsent. reflexivity.
Qed.

(** C5, as stated, fails: with a quantity below 1 for an item the cart
    does not hold, the Cart Manager answers with the unchanged cart, and the
    page sends the removal and reports success; nothing reports
    [ItemNotFoundError]. *)
Lemma updateQuantity_absent_below_one_is_no_error :
  contains (Server.cart (CartPage.server Reference.staleWorld)) "m1" = false
  /\ updateQuantity (Server.cart (CartPage.server Reference.staleWorld)) "m1" 0
     = Ok (Server.cart (CartPage.server Reference.staleWorld))
  /\ updateQuantity (Server.cart (CartPage.server Reference.staleWorld)) "m1" 0
     <> Err ItemNotFoundError
  /\ CartPage.log (CartPage.run (CartPage.updateQuantity "m1" 0) Reference.staleWorld)
     = [Ui.Call (Server.DeleteCartRemove "m1"); Ui.Call Server.GetCart;
        Ui.ToastSuccess "Item removed from cart"].
Proof.
  split; [reflexivity|].
  split; [reflexivity|].
  split; [discriminate | reflexivity].
Qed.

(** C5, amended: a quantity below 1 makes [updateQuantity] the removal of
    the item (the page does exactly what [removeItem] does, the item is
    absent afterwards and no quantity is stored); a quantity of at least 1
    replaces the stored quantity of an item the cart holds, leaving its other
    fields and the other lines as they are; and [updateQuantity] fails with
    [ItemNotFoundError] when the item is absent and the quantity is at least
    1, which the page reports as a failed update. *)
Theorem updateQuantity_removes_or_replaces
  (c : Cart) (m : string) (q : Z) (old : CartItem) (w : CartPage.World) :
  (q < 1 ->
   CartPage.updateQuantity m q w = CartPage.removeItem m w
   /\ updateQuantity c m q = Ok (remove c m)
   /\ contains (remove c m) m = false)
  /\ (1 <= q -> find c m = Some old ->
      exists c',
        updateQuantity c m q = Ok c'
        /\ find c' m = Some (mkCartItem (menu_item_id old) (name old) (price old) q (image old))
        /\ length (items c') = length (items c)
        /\ (forall m', m' <> m -> find c' m' = find c m')
        /\ restaurant_id c' = restaurant_id c)
  /\ (1 <= q -> contains c m = false -> updateQuantity c m q = Err ItemNotFoundError)
  /\ (1 <= q -> contains (Server.cart (CartPage.server w)) m = false ->
      CartPage.run (CartPage.updateQuantity m q) w
      = CartPage.mkWorld (CartPage.server w) (CartPage.page w)
          ((CartPage.log w ++ [Ui.Call (Server.PutCartUpdate m q)])
           ++ [Ui.ToastError "Failed to update quantity"])).
Proof.
  split; [|split; [|split]].
  - intros Hq. split; [rewrite (page_updateQuantity_below_one m q Hq); reflexivity|].
    split; [|apply contains_remove].
    unfold updateQuantity. destruct (Z.ltb_spec q 1) as [_|Hge]; [reflexivity | lia].
  - intros Hq Hold. unfold updateQuantity.
    destruct (Z.ltb_spec q 1) as [Hlt|_]; [lia|].
    assert (Hc : contains c m = true) by (apply find_contains; eauto).
    rewrite Hc. eexists. split; [reflexivity|].
    destruct (find_hasId _ _ _ Hold) as [Hid _].
    unfold find in *. cbn [items restaurant_id].
    split; [|split; [|split]].
    + rewrite find_withQuantity, Hold. cbn [fmap option_fmap option_map].
      rewrite (withQuantity_found _ _ _ Hid). reflexivity.
    + apply length_map.
    + intros m' Hne. apply find_other_withQuantity, Hne.
    + reflexivity.
  - intros Hq Habsent. unfold updateQuantity.
    destruct (Z.ltb_spec q 1) as [Hlt|_]; [lia|]. rewrite Habsent. reflexivity.
  - apply page_updateQuantity_absent.
Qed.

Lemma updateQuantity_removes_or_replaces_witness :
  let fries := mkCartItem "m2" "Fries" 3.5%float 2 "" in
  let c := mkCart [fries] (Some "r1"%string) in
  updateQuantity c "m2" 0 = Ok emptyCart
  /\ (exists c', updateQuantity c "m2" 5 = Ok c'
                 /\ find c' "m2" = Some (mkCartItem "m2" "Fries" 3.5%float 5 ""))
  /\ updateQuantity c "m1" 1 = Err ItemNotFoundError.
Proof.
  cbn zeta.
  pose (fries := mkCartItem "m2" "Fries" 3.5%float 2 "").
  pose (c := mkCart [fries] (Some "r1"%string)).
  split; [|split].
  - destruct (updateQuantity_removes_or_replaces c "m2" 0 fries Reference.staleWorld)
      as (Hbelow & _).
    destruct (Hbelow ltac:(lia)) as (_ & Hremove & _). exact Hremove.
  - destruct (updateQuantity_removes_or_replaces c "m2" 5 fries Reference.staleWorld)
      as (_ & Hreplace & _).
    destruct (Hreplace ltac:(lia) eq_refl) as (c' & Hupd & Hfind & _).
    exists c'. split; [exact Hupd | exact Hfind].
  - destruct (updateQuantity_removes_or_replaces c "m1" 1 fries Reference.staleWorld)
      as (_ & _ & Habsent & _).
    exact (Habsent ltac:(lia) eq_refl).
Defined.

End CartManagerFacts.

(** ** Placing an order *)

Section PlaceOrderFacts.
Import Reference.

Lemma truthy_trim (address : string) :
  Js.truthy (Js.trim address) = false <-> blank address.
Proof.
  unfold blank. destruct (Js.trim address); cbn [Js.truthy].
  - split; reflexivity.
  - split; discriminate.
Qed.










(** What [placeOrder] of the page does with a blank address. *)
Lemma page_placeOrder_blank (w : CartPage.World) :
  blank (CartPage.deliveryAddress (CartPage.page w)) ->
  CartPage.run CartPage.placeOrder w
  = CartPage.mkWorld (CartPage.server w) (CartPage.page w)
      (CartPage.log w ++ [Ui.ToastError "Please enter delivery address"]).
Proof.
  intros Hblank. apply truthy_trim in Hblank.
  unfold CartPage.run, CartPage.placeOrder, mbind, CartPage.M_bind, CartPage.getState.
  rewrite Hblank. reflexivity.
Qed.

(** What [placeOrder] of the page does with an address and no item. *)
Lemma page_placeOrder_empty (w : CartPage.World) :
  ~ blank (CartPage.deliveryAddress (CartPage.page w)) ->
  items (CartPage.cart (CartPage.page w)) = [] ->
  CartPage.run CartPage.placeOrder w
  = CartPage.mkWorld (CartPage.server w) (CartPage.page w)
      (CartPage.log w ++ [Ui.ToastError "Your cart is empty"]).
Proof.
  intros Haddr Hitems.
  unfold CartPage.run, CartPage.placeOrder, mbind, CartPage.M_bind, CartPage.getState.
  destruct (Js.truthy (Js.trim (CartPage.deliveryAddress (CartPage.page w)))) eqn:Htrim.
  2:{ exfalso. apply Haddr, truthy_trim, Htrim. }
  rewrite Hitems. reflexivity.
Qed.

(** C2: [placeOrder] fails with the empty-cart error when the cart has no
    item and with the missing-address error when the delivery address is
    blank after trimming: whenever one of the two holds the page shows one
    error, which is the error of a precondition that fails, sends nothing, so
    that no order is created, and leaves the server and the page, cart
    included, as they were. A blank address is always reported as such; an
    empty cart is reported as such unless the address is blank as well, where
    the contract names both errors and the page reports the address. That
    last case does not arise on the page: without items no order button is
    rendered, and a press changes nothing. On an empty cart with address
    "123 Main St" it fails with the empty-cart error and the cart is
    unchanged. *)
Theorem placeOrder_rejects_without_side_effects (w : CartPage.World) :
  (items (CartPage.cart (CartPage.page w)) = []
   \/ blank (CartPage.deliveryAddress (CartPage.page w)) ->
   exists message e,
     CartPage.run CartPage.placeOrder w
     = CartPage.mkWorld (CartPage.server w) (CartPage.page w)
         (CartPage.log w ++ [Ui.ToastError message])
     /\ reported (Ui.ToastError message) = Some e
     /\ refused (CartPage.page w) e)
  /\ (items (CartPage.cart (CartPage.page w)) = [] ->
      CartPage.run CartPage.placeOrder w
      = CartPage.mkWorld (CartPage.server w) (CartPage.page w)
          (CartPage.log w ++ [Ui.ToastError "Your cart is empty"])
      \/ (blank (CartPage.deliveryAddress (CartPage.page w))
          /\ CartPage.run CartPage.placeOrder w
             = CartPage.mkWorld (CartPage.server w) (CartPage.page w)
                 (CartPage.log w ++ [Ui.ToastError "Please enter delivery address"])))
  /\ (blank (CartPage.deliveryAddress (CartPage.page w)) ->
      CartPage.run CartPage.placeOrder w
      = CartPage.mkWorld (CartPage.server w) (CartPage.page w)
          (CartPage.log w ++ [Ui.ToastError "Please enter delivery address"]))
  /\ reported (Ui.ToastError "Please enter delivery address") = Some MissingAddressError
  /\ reported (Ui.ToastError "Your cart is empty") = Some EmptyCartError
  /\ CartPage.run CartPage.placeOrder (emptyCartWorld "123 Main St")
     = CartPage.mkWorld (CartPage.server (emptyCartWorld "123 Main St"))
         (CartPage.page (emptyCartWorld "123 Main St"))
         [Ui.ToastError "Your cart is empty"]
  /\ (forall b, items (CartPage.cart (CartPage.page w)) = [] ->
        CartPage.run (CartPageOn.click b CartPageOn.PlaceOrder) w = w).
Proof.
  assert (Hempty : items (CartPage.cart (CartPage.page w)) = [] ->
            CartPage.run CartPage.placeOrder w
            = CartPage.mkWorld (CartPage.server w) (CartPage.page w)
                (CartPage.log w ++ [Ui.ToastError "Your cart is empty"])
            \/ (blank (CartPage.deliveryAddress (CartPage.page w))
                /\ CartPage.run CartPage.placeOrder w
                   = CartPage.mkWorld (CartPage.server w) (CartPage.page w)
                       (CartPage.log w ++ [Ui.ToastError "Please enter delivery address"]))).
  { intros Hitems.
    destruct (Js.truthy (Js.trim (CartPage.deliveryAddress (CartPage.page w)))) eqn:Htrim.
    - left. apply page_placeOrder_empty; [|exact Hitems].
      intros Hblank. apply truthy_trim in Hblank. congruence.
    - right. apply truthy_trim in Htrim.
      split; [exact Htrim | apply page_placeOrder_blank, Htrim]. }
  split; [|split; [exact Hempty|]].
  - intros [Hitems|Hblank].
    + destruct (Hempty Hitems) as [Hrun|[Hblank Hrun]].
      * exists "Your cart is empty"%string, EmptyCartError.
        split; [exact Hrun|]. split; [reflexivity|].
        left. split; [reflexivity | exact Hitems].
      * exists "Please enter delivery address"%string, MissingAddressError.
        split; [exact Hrun|]. split; [reflexivity|].
        right. split; [reflexivity | exact Hblank].
    + exists "Please enter delivery address"%string, MissingAddressError.
      split; [apply page_placeOrder_blank, Hblank|]. split; [reflexivity|].
      right. split; [reflexivity | exact Hblank].
  - split; [apply page_placeOrder_blank|].
    split; [reflexivity|].
    split; [reflexivity|].
    split.
    + apply (page_placeOrder_empty (emptyCartWorld "123 Main St")).
      * unfold blank. vm_compute. discriminate.
      * reflexivity.
    + intros b Hitems. destruct w as [s p l]. cbn [CartPage.page] in Hitems.
      unfold CartPage.run, CartPageOn.click, mbind, CartPage.M_bind, CartPage.getState,
        CartPageOn.view.
      cbn [CartPage.page]. rewrite Hitems.
      destruct (CartPage.loading p); reflexivity.
Qed.

(** An empty cart with no address, with an address, and with an address of
    blanks only. *)
Lemma placeOrder_rejects_without_side_effects_witness :
  CartPage.run CartPage.placeOrder (emptyCartWorld "")
  = CartPage.mkWorld (CartPage.server (emptyCartWorld "")) (CartPage.page (emptyCartWorld ""))
      [Ui.ToastError "Please enter delivery address"]
  /\ CartPage.run CartPage.placeOrder (emptyCartWorld "221B Baker Street")
     = CartPage.mkWorld (CartPage.server (emptyCartWorld "221B Baker Street"))
         (CartPage.page (emptyCartWorld "221B Baker Street"))
         [Ui.ToastError "Your cart is empty"]
  /\ CartPage.log (CartPage.run CartPage.placeOrder (emptyCartWorld "   "))
     = [Ui.ToastError "Please enter delivery address"].
Proof.
  split; [|split].
  - exact (proj1 (proj2 (proj2 (placeOrder_rejects_without_side_effects (emptyCartWorld ""))))
             eq_refl).
  - destruct (proj1 (proj2 (placeOrder_rejects_without_side_effects
                              (emptyCartWorld "221B Baker Street"))) eq_refl)
      as [Hrun|[Hblank _]]; [exact Hrun|].
    unfold blank in Hblank. vm_compute in Hblank. discriminate Hblank.
  - rewrite (proj1 (proj2 (proj2 (placeOrder_rejects_without_side_effects
                                    (emptyCartWorld "   ")))) eq_refl).
    reflexivity.
Defined.

End PlaceOrderFacts.

(** ** Further properties of the pages *)

Section PageFacts.
Import Reference.

(** Once both checks of [placeOrder] pass, the page sends one request to
    [POST /orders] with the address as entered; when the order is accepted
    it announces the success and leaves for the orders, when it is rejected
    it shows the failure; either way [placing] ends false and the cart shown
    is not touched. *)
Theorem page_placeOrder_sends_one_request
  (w : CartPage.World) (answer : result Order) (s' : Server.t) :
  ~ blank (CartPage.deliveryAddress (CartPage.page w)) ->
  items (CartPage.cart (CartPage.page w)) <> [] ->
  Server.postOrders (CartPage.server w) (CartPage.deliveryAddress (CartPage.page w))
  = (answer, s') ->
  CartPage.run CartPage.placeOrder w
  = CartPage.mkWorld s'
      (CartPage.mkState (CartPage.cart (CartPage.page w))
                        (CartPage.deliveryAddress (CartPage.page w))
                        (CartPage.loading (CartPage.page w)) false)
      (CartPage.log w
       ++ Ui.Call (Server.PostOrders (CartPage.deliveryAddress (CartPage.page w)))
          :: match answer with
             | Ok _ => [Ui.ToastSuccess "Order placed successfully!"; Ui.Navigate "/orders"]
             | Err e => [Ui.ToastFailure e "Failed to place order"]
             end).
Proof.
  intros Haddr Hitems Hanswer.
  unfold CartPage.run, CartPage.placeOrder, mbind, CartPage.M_bind, CartPage.getState.
  destruct (Js.truthy (Js.trim (CartPage.deliveryAddress (CartPage.page w)))) eqn:Htrim.
  2:{ exfalso. apply Haddr, truthy_trim, Htrim. }
  cbn [negb].
  destruct (items (CartPage.cart (CartPage.page w))) as [|it its] eqn:Hits; [contradiction|].
  cbn [length Nat.eqb].
  unfold CartPage.setPlacing, CartPage.setState, CartPage.api.
  cbn [CartPage.server CartPage.page CartPage.log].
  rewrite Hanswer.
  destruct answer as [o|e]; cbn; rewrite <- !app_assoc; reflexivity.
Qed.

Lemma page_placeOrder_sends_one_request_witness :
  CartPage.log (CartPage.run CartPage.placeOrder staleWorld)
  = [Ui.Call (Server.PostOrders "123 Main St");
     Ui.ToastSuccess "Order placed successfully!"; Ui.Navigate "/orders"]
  /\ CartPage.cart (CartPage.page (CartPage.run CartPage.placeOrder staleWorld))
     = CartPage.cart (CartPage.page staleWorld).
Proof.
  assert (Haddr : ~ blank (CartPage.deliveryAddress (CartPage.page staleWorld))).
  { unfold blank. vm_compute. discriminate. }
  assert (Hitems : items (CartPage.cart (CartPage.page staleWorld)) <> []) by discriminate.
  rewrite (page_placeOrder_sends_one_request staleWorld _ _ Haddr Hitems eq_refl).
  split; reflexivity.
Defined.

(** When a call of [handleAddToCart] is accepted, the selector of its item
    shows 1 again and every other selector goes back to what the call
    captured when it was sent; a rejected call leaves the selectors alone. *)
Theorem accepted_add_resets_selector
  (st : RestaurantPage.State) (k : nat) (call : RestaurantPage.Awaiting) (e : Error) :
  RestaurantPage.awaiting st !! k = Some call ->
  RestaurantPage.shown
    (RestaurantPage.quantities (fst (RestaurantPage.settle st k (Ok tt))))
    (RestaurantPage.id (RestaurantPage.menuItem call)) = 1
  /\ (forall other, other <> RestaurantPage.id (RestaurantPage.menuItem call) ->
        RestaurantPage.quantities (fst (RestaurantPage.settle st k (Ok tt))) !! other
        = RestaurantPage.captured call !! other)
  /\ RestaurantPage.quantities (fst (RestaurantPage.settle st k (Err e)))
     = RestaurantPage.quantities st.
Proof.
  intros Hk. unfold RestaurantPage.settle. rewrite Hk. cbn [fst RestaurantPage.quantities].
  split; [|split].
  - unfold RestaurantPage.shown. rewrite lookup_insert_eq. reflexivity.
  - intros other Hne. rewrite lookup_insert_ne; [reflexivity | congruence].
  - reflexivity.
Qed.

(** Two clicks on "+" for m2 while the add of m1 is in flight are lost when
    the add is accepted. *)
Lemma accepted_add_resets_selector_witness :
  let burger := RestaurantPage.mkMenuItem "m1" "Burger" 9.99%float true in
  let st := fst (RestaurantPage.steps (RestaurantPage.initial (Some "ada"%string) "r1")
                   [RestaurantPage.Clicked "m1" RestaurantPage.Increase;
                    RestaurantPage.AddToCart burger;
                    RestaurantPage.Clicked "m2" RestaurantPage.Increase;
                    RestaurantPage.Clicked "m2" RestaurantPage.Increase]) in
  RestaurantPage.shown (RestaurantPage.quantities st) "m2" = 3
  /\ RestaurantPage.shown
       (RestaurantPage.quantities (fst (RestaurantPage.settle st 0 (Ok tt)))) "m1" = 1
  /\ RestaurantPage.shown
       (RestaurantPage.quantities (fst (RestaurantPage.settle st 0 (Ok tt)))) "m2" = 1.
Proof.
  cbn zeta.
  pose (burger := RestaurantPage.mkMenuItem "m1" "Burger" 9.99%float true).
  pose (st := fst (RestaurantPage.steps (RestaurantPage.initial (Some "ada"%string) "r1")
                   [RestaurantPage.Clicked "m1" RestaurantPage.Increase;
                    RestaurantPage.AddToCart burger;
                    RestaurantPage.Clicked "m2" RestaurantPage.Increase;
                    RestaurantPage.Clicked "m2" RestaurantPage.Increase])).
  pose (call := RestaurantPage.mkAwaiting burger {["m1"%string := 2]}).
  assert (Hk : RestaurantPage.awaiting st !! 0%nat = Some call) by (vm_compute; reflexivity).
  destruct (accepted_add_resets_selector st 0 call UnavailableError Hk) as (Hreset & Hother & _).
  split; [vm_compute; reflexivity|].
  split; [exact Hreset|].
  cut (RestaurantPage.shown
         (RestaurantPage.quantities (fst (RestaurantPage.settle st 0 (Ok tt)))) "m2" = 1);
    [intros H; exact H|].
  unfold RestaurantPage.shown.
  rewrite (Hother "m2"%string); [vm_compute; reflexivity | discriminate].
Defined.

(** The filtered list keeps the order of the restaurants, filters a
    concatenation piece by piece, and filtering it again with the same query
    and cuisine changes nothing. *)
Theorem filteredRestaurants_keeps_order
  (restaurants more : list HomePage.Restaurant) (searchQuery selectedCuisine : string) :
  sublist (HomePage.filteredRestaurants restaurants searchQuery selectedCuisine) restaurants
  /\ HomePage.filteredRestaurants (restaurants ++ more) searchQuery selectedCuisine
     = HomePage.filteredRestaurants restaurants searchQuery selectedCuisine
       ++ HomePage.filteredRestaurants more searchQuery selectedCuisine
  /\ HomePage.filteredRestaurants
       (HomePage.filteredRestaurants restaurants searchQuery selectedCuisine)
       searchQuery selectedCuisine
     = HomePage.filteredRestaurants restaurants searchQuery selectedCuisine.
Proof.
  unfold HomePage.filteredRestaurants.
  split; [|split].
  - induction restaurants as [|r rs IH]; [constructor|].
    cbn [List.filter].
    destruct (HomePage.matchesSearch r searchQuery && HomePage.matchesCuisine r selectedCuisine).
    + apply sublist_skip, IH.
    + apply sublist_cons, IH.
  - apply List.filter_app.
  - apply filter_keeps_all_in. intros r Hin.
    apply filter_In in Hin as [_ Hkeep]. exact Hkeep.
Qed.

End PageFacts.

(** ** The category tabs of the restaurant page *)

Section MenuFacts.
Import RestaurantMenu.

Lemma existsb_eqb_In (x : string) (l : list string) :
  existsb (String.eqb x) l = true <-> In x l.
Proof.
  rewrite existsb_exists. split.
  - intros (y & Hin & Heq). apply String.eqb_eq in Heq as ->. exact Hin.
  - intros Hin. exists x. split; [exact Hin | apply String.eqb_refl].
Qed.

Lemma newSet_acc_In (xs acc : list string) (c : string) :
  In c (fold_left setAdd xs acc) <-> In c acc \/ In c xs.
Proof.
  revert acc. induction xs as [|x xs IH]; intros acc; cbn [fold_left].
  - cbn. tauto.
  - rewrite IH. unfold setAdd.
    destruct (existsb (String.eqb x) acc) eqn:Hx.
    + apply existsb_eqb_In in Hx. cbn. split; [tauto|].
      intros [H|[<-|H]]; tauto.
    + rewrite in_app_iff. cbn. tauto.
Qed.

Lemma newSet_acc_NoDup (xs acc : list string) :
  NoDup acc -> NoDup (fold_left setAdd xs acc).
Proof.
  revert acc. induction xs as [|x xs IH]; intros acc Hacc; cbn [fold_left]; [exact Hacc|].
  apply IH. unfold setAdd.
  destruct (existsb (String.eqb x) acc) eqn:Hx; [exact Hacc|].
  apply NoDup_app. split; [exact Hacc|]. split.
  - intros y Hy Hyx. apply list_elem_of_singleton in Hyx as ->.
    apply list_elem_of_In, existsb_eqb_In in Hy. congruence.
  - apply NoDup_singleton.
Qed.

Lemma newSet_In (xs : list string) (c : string) : In c (newSet xs) <-> In c xs.
Proof. unfold newSet. rewrite newSet_acc_In. cbn. tauto. Qed.

Lemma newSet_NoDup (xs : list string) : NoDup (newSet xs).
Proof. apply newSet_acc_NoDup. constructor. Qed.

(** A value seen before is skipped, a new one goes last. *)
Lemma newSet_snoc (xs : list string) (x : string) :
  newSet (xs ++ [x]) = if existsb (String.eqb x) xs then newSet xs else newSet xs ++ [x].
Proof.
  unfold newSet. rewrite fold_left_app. cbn [fold_left]. unfold setAdd at 1.
  fold (newSet xs).
  destruct (existsb (String.eqb x) (newSet xs)) eqn:Hset;
    destruct (existsb (String.eqb x) xs) eqn:Hxs; try reflexivity.
  - apply (proj1 (existsb_eqb_In _ _)), (proj1 (newSet_In _ _)),
      (proj2 (existsb_eqb_In _ _)) in Hset. congruence.
  - apply (proj1 (existsb_eqb_In _ _)), (proj2 (newSet_In _ _)),
      (proj2 (existsb_eqb_In _ _)) in Hxs. congruence.
Qed.

Lemma filter_split {A} (f : A -> bool) (l : list A) :
  l ≡ₚ List.filter f l ++ List.filter (fun x => negb (f x)) l.
Proof.
  induction l as [|x l IH]; [reflexivity|].
  cbn [List.filter]. destruct (f x); cbn [negb app].
  - constructor. exact IH.
  - rewrite <- Permutation_middle. constructor. exact IH.
Qed.

Lemma filter_filter_other (c c' : string) (l : list MenuEntry) :
  c' <> c ->
  List.filter (fun item => String.eqb (category item) c')
              (List.filter (fun item => negb (String.eqb (category item) c)) l)
  = List.filter (fun item => String.eqb (category item) c') l.
Proof.
  intros Hne. induction l as [|x l IH]; [reflexivity|].
  cbn [List.filter].
  destruct (String.eqb_spec (category x) c) as [Hc|Hc]; cbn [negb List.filter].
  - destruct (String.eqb_spec (category x) c') as [Hc'|_]; [congruence | exact IH].
  - rewrite IH. reflexivity.
Qed.

(** Filtering by each of a duplicate-free list of categories that covers the
    menu splits the menu. *)
Lemma tabs_split (cs : list string) (l : list MenuEntry) :
  NoDup cs -> (forall item, In item l -> In (category item) cs) ->
  concat (map (fun c => List.filter (fun item => String.eqb (category item) c) l) cs) ≡ₚ l.
Proof.
  revert l. induction cs as [|c cs IH]; intros l Hnodup Hcover.
  - destruct l as [|x l]; [reflexivity|]. destruct (Hcover x (or_introl eq_refl)).
  - apply NoDup_cons in Hnodup as [Hc Hnodup]. cbn [map concat].
    transitivity (List.filter (fun item => String.eqb (category item) c) l
                  ++ List.filter (fun item => negb (String.eqb (category item) c)) l);
      [|symmetry; apply filter_split].
    apply Permutation_app; [reflexivity|].
    transitivity
      (concat (map (fun c' => List.filter (fun item => String.eqb (category item) c')
                                (List.filter (fun item => negb (String.eqb (category item) c)) l))
                   cs)); [|apply (IH _ Hnodup)].
    + apply Permutation_refl'. f_equal. apply map_ext_in. intros c' Hc'.
      symmetry. apply filter_filter_other. intros ->.
      apply Hc, list_elem_of_In, Hc'.
    + intros item Hin. apply filter_In in Hin as [Hin Hneq].
      destruct (Hcover item Hin) as [Heq|Hcs]; [|exact Hcs].
      rewrite <- Heq, String.eqb_refl in Hneq. discriminate.
Qed.

Lemma filteredMenu_other (menu : list MenuEntry) (c : string) :
  c <> "All"%string ->
  filteredMenu menu c = List.filter (fun item => String.eqb (category item) c) menu.
Proof.
  intros Hc. unfold filteredMenu.
  destruct (String.eqb_spec c "All"); [contradiction | reflexivity].
Qed.

(** The tabs of the restaurant page are "All" followed by the categories of
    the menu, each once (the set has no duplicate) and in the order they
    first occur in the menu: an item whose category was seen before adds no
    tab, a new category adds the last tab. A category that is itself named
    "All" is the one way to get a tab twice. *)
Theorem category_tabs_are_the_distinct_categories
  (menu : list MenuEntry) (item : MenuEntry) (c : string) :
  (In c (categories menu)
   <-> c = "All"%string \/ exists entry, In entry menu /\ category entry = c)
  /\ NoDup (tail (categories menu))
  /\ (NoDup (categories menu) <-> ~ In "All"%string (map category menu))
  /\ categories (menu ++ [item])
     = if existsb (String.eqb (category item)) (map category menu)
       then categories menu
       else categories menu ++ [category item].
Proof.
  unfold categories. cbn [tail].
  split; [|split; [|split]].
  - cbn [In]. rewrite newSet_In, in_map_iff. split.
    + intros [<-|(entry & Hc & Hin)]; [left; reflexivity | right; eauto].
    + intros [->|(entry & Hin & Hc)]; [left; reflexivity | right; eauto].
  - apply newSet_NoDup.
  - rewrite NoDup_cons, list_elem_of_In, newSet_In. split.
    + intros [Hnot _]. exact Hnot.
    + intros Hnot. split; [exact Hnot | apply newSet_NoDup].
  - rewrite map_app. cbn [map]. rewrite newSet_snoc.
    destruct (existsb (String.eqb (category item)) (map category menu)); reflexivity.
Qed.

(** The tabs split the menu: "All" shows the whole menu, every item is
    shown under the tab of its category, a tab shows only items of the menu
    that have its category, no tab other than "All" is empty, and when no
    category is named "All" the menus of the category tabs, put together, are
    the menu with every item exactly once. *)
Theorem menu_tabs_partition (menu : list MenuEntry) :
  filteredMenu menu "All" = menu
  /\ (forall item, In item menu -> In item (filteredMenu menu (category item)))
  /\ (forall c item, In item (filteredMenu menu c) ->
                     In item menu /\ (c = "All"%string \/ category item = c))
  /\ (forall c, In c (categories menu) -> c <> "All"%string -> filteredMenu menu c <> [])
  /\ (~ In "All"%string (map category menu) ->
      concat (map (filteredMenu menu) (tail (categories menu))) ≡ₚ menu).
Proof.
  split; [reflexivity|].
  split; [|split; [|split]].
  - intros item Hin. unfold filteredMenu.
    destruct (String.eqb (category item) "All"); [exact Hin|].
    apply filter_In. split; [exact Hin | apply String.eqb_refl].
  - intros c item. unfold filteredMenu.
    destruct (String.eqb_spec c "All") as [->|_].
    + intros Hin. split; [exact Hin | left; reflexivity].
    + intros Hin. apply filter_In in Hin as [Hin Hc].
      split; [exact Hin | right; apply String.eqb_eq, Hc].
  - intros c Hc Hne.
    destruct Hc as [Hc|Hc]; [congruence|].
    apply newSet_In, in_map_iff in Hc as (entry & Hcat & Hin).
    rewrite (filteredMenu_other menu c Hne). intros Hempty.
    assert (Hentry : In entry (List.filter (fun item => String.eqb (category item) c) menu)).
    { apply filter_In. split; [exact Hin | apply String.eqb_eq, Hcat]. }
    rewrite Hempty in Hentry. destruct Hentry.
  - intros Hall. unfold categories. cbn [tail].
    transitivity
      (concat (map (fun c => List.filter (fun item => String.eqb (category item) c) menu)
                   (newSet (map category menu)))).
    + apply Permutation_refl'. f_equal. apply map_ext_in. intros c Hc.
      apply filteredMenu_other. intros ->. apply Hall, newSet_In, Hc.
    + apply tabs_split; [apply newSet_NoDup|].
      intros entry Hin. apply newSet_In, in_map, Hin.
Qed.

Lemma menu_tabs_partition_witness :
  let pizza := mkMenuEntry "m1" "Margherita" "" 12%float "" "Pizza" true in
  let cola := mkMenuEntry "m2" "Cola" "" 2.5%float "" "Drinks" true in
  let funghi := mkMenuEntry "m3" "Funghi" "" 13%float "" "Pizza" false in
  categories [pizza; cola; funghi] = ["All"; "Pizza"; "Drinks"]%string
  /\ [pizza; funghi; cola] ≡ₚ [pizza; cola; funghi].
Proof.
  cbn zeta.
  pose (menu := [mkMenuEntry "m1" "Margherita" "" 12%float "" "Pizza" true;
                 mkMenuEntry "m2" "Cola" "" 2.5%float "" "Drinks" true;
                 mkMenuEntry "m3" "Funghi" "" 13%float "" "Pizza" false]).
  split; [reflexivity|].
  destruct (menu_tabs_partition menu) as (_ & _ & _ & _ & Hsplit).
  apply Hsplit. cbn. intros [H|[H|[H|[]]]]; discriminate H.
Defined.

End MenuFacts.

(** ** Loading the restaurant page *)

Section RestaurantLoadFacts.
Import RestaurantMenu.

(** After [loadRestaurantData] on the freshly mounted page the spinner is
    gone; the restaurant is shown, with the tabs of its menu and the whole
    menu under "All", exactly when both requests succeeded; when either
    failed, also the menu request alone, the page says so in a toast and
    shows "Restaurant not found". *)
Theorem restaurant_shown_only_with_its_menu
  (restaurantRes : result HomePage.Restaurant) (menuRes : result (list MenuEntry)) :
  (forall r menu,
      restaurantRes = Ok r -> menuRes = Ok menu ->
      view (fst (loadRestaurantData restaurantRes menuRes initial))
      = Shown r (categories menu) menu
      /\ snd (loadRestaurantData restaurantRes menuRes initial) = [])
  /\ (forall e, restaurantRes = Err e \/ menuRes = Err e ->
      view (fst (loadRestaurantData restaurantRes menuRes initial)) = NotFound
      /\ snd (loadRestaurantData restaurantRes menuRes initial)
         = [Ui.ToastError "Failed to load restaurant"])
  /\ (forall st, loading (fst (loadRestaurantData restaurantRes menuRes st)) = false)
  /\ ((exists r tabs menu,
          view (fst (loadRestaurantData restaurantRes menuRes initial)) = Shown r tabs menu)
      <-> exists r menu, restaurantRes = Ok r /\ menuRes = Ok menu).
Proof.
  split; [|split; [|split]].
  - intros r menu -> ->. split; reflexivity.
  - intros e [ -> | -> ].
    + split; reflexivity.
    + destruct restaurantRes; split; reflexivity.
  - intros st. destruct restaurantRes, menuRes; reflexivity.
  - split.
    + intros (r & tabs & menu & Hview).
      destruct restaurantRes as [r0|e], menuRes as [m0|e']; try discriminate Hview.
      exists r0, m0. split; reflexivity.
    + intros (r & menu & -> & ->). eexists; eexists; eexists. reflexivity.
Qed.

Lemma restaurant_shown_only_with_its_menu_witness :
  let luigi := HomePage.mkRestaurant "r1" "Luigi" "Wood-fired pizza" "Italian" "" in
  view (fst (loadRestaurantData (Ok luigi) (Err UnavailableError) initial)) = NotFound.
Proof.
  cbn zeta.
  pose (luigi := HomePage.mkRestaurant "r1" "Luigi" "Wood-fired pizza" "Italian" "").
  destruct (restaurant_shown_only_with_its_menu (Ok luigi) (Err UnavailableError))
    as (_ & Hfail & _).
  exact (proj1 (Hfail UnavailableError (or_intror eq_refl))).
Defined.

End RestaurantLoadFacts.

(** ** Typing in the search box *)

Section TypingFacts.
Import HomePage Reference.



Lemma occursIn_trans (a b c : string) : occursIn a b -> occursIn b c -> occursIn a c.
Proof.
  intros (p & q & ->) (p' & q' & ->).
  exists (p' +:+ p)%string, (q +:+ q')%string.
  rewrite !append_assoc. reflexivity.
Qed.

Lemma matchesSearch_narrows (r : Restaurant) (before q after : string) :
  matchesSearch r (before +:+ q +:+ after) = true -> matchesSearch r q = true.
Proof.
  unfold matchesSearch. rewrite !orb_true_iff, !includes_occursIn.
  assert (Hq : occursIn (Js.toLowerCase q) (Js.toLowerCase (before +:+ q +:+ after))).
  { exists (Js.toLowerCase before), (Js.toLowerCase after).
    rewrite !toLowerCase_app. reflexivity. }
  intros [H|H]; [left|right]; exact (occursIn_trans _ _ _ Hq H).
Qed.

Lemma filter_sublist_impl {A} (f g : A -> bool) (l : list A) :
  (forall x, f x = true -> g x = true) ->
  sublist (List.filter f l) (List.filter g l).
Proof.
  intros Himpl. induction l as [|x l IH]; [constructor|].
  cbn [List.filter]. destruct (f x) eqn:Hf.
  - rewrite (Himpl x Hf). apply sublist_skip, IH.
  - destruct (g x); [apply sublist_cons, IH | exact IH].
Qed.

(** On text of the Latin-1 range, which is the text of this development and
    on which [toLowerCase] works one code unit at a time, typing more, before
    or after what is typed, only takes restaurants away: the list for the
    longer query is a sublist of the list for the shorter one. Nothing is said
    of text beyond that range, where the lower case of a letter depends on
    its neighbours. Whatever the text, choosing a cuisine only takes
    restaurants away: the list for a cuisine is a sublist of the list for
    "All". *)
Theorem typing_and_cuisine_only_narrow
  (restaurants : list Restaurant) (before q after selectedCuisine : string) :
  sublist (filteredRestaurants restaurants (before +:+ q +:+ after) selectedCuisine)
          (filteredRestaurants restaurants q selectedCuisine)
  /\ sublist (filteredRestaurants restaurants q selectedCuisine)
             (filteredRestaurants restaurants q "All").
Proof.
  unfold filteredRestaurants. split; apply filter_sublist_impl; intros r Hr.
  - apply andb_true_iff in Hr as [Hs Hc]. apply andb_true_iff.
    split; [exact (matchesSearch_narrows r before q after Hs) | exact Hc].
  - apply andb_true_iff in Hr as [Hs _]. rewrite Hs. reflexivity.
Qed.



End TypingFacts.

(** ** The session *)

Section SessionFacts.
Import Session Reference.

Lemma authorization_spec (storage : gmap string string) (header : string) :
  authorization storage = Some header
  <-> exists token, storage !! "token"%string = Some token
                    /\ token <> EmptyString
                    /\ header = ("Bearer " +:+ token)%string.
Proof.
  unfold authorization. destruct (storage !! "token"%string) as [token|].
  - destruct token as [|a token]; cbn [Js.truthy].
    + split; [discriminate|]. intros (t & Ht & Hne & _). congruence.
    + split.
      * intros H. injection H as <-. eexists. split; [reflexivity|].
        split; [discriminate | reflexivity].
      * intros (t & Ht & _ & ->). injection Ht as <-. reflexivity.
  - split; [discriminate|]. intros (t & Ht & _). discriminate Ht.
Qed.

Lemma initApp_ok (storage : gmap string string) (seed : result unit) (me : result User) :
  sessionOk (fst (initApp seed me (mounted storage))).
Proof.
  unfold initApp, sessionOk. cbn [mounted localStorage user].
  destruct (storage !! "token"%string) as [token|] eqn:Htoken;
    [destruct (Js.truthy token); [destruct me|]|];
    cbn [fst user localStorage appLoading]; split; try reflexivity; try congruence.
  intros _. rewrite Htoken. eauto.
Qed.

Lemma step_ok_session (st : State) (e : Event) : sessionOk st -> sessionOk (fst (step st e)).
Proof.
  intros [Huser Hloading]. unfold sessionOk.
  destruct e as [|form|form|[[token data]|err]|[[token data]|err]|];
    cbn [step handleLogin handleRegister handleLogout fst user localStorage appLoading];
    (split; [|exact Hloading]); try exact Huser; try congruence.
  - intros _. rewrite lookup_insert_eq. eauto.
  - intros _. rewrite lookup_insert_eq. eauto.
Qed.

Lemma run_ok (es : list Event) (st : State) :
  sessionOk st -> sessionOk (fold_left (fun st e => fst (step st e)) es st).
Proof.
  revert st. induction es as [|e es IH]; intros st Hst; [exact Hst|].
  cbn [fold_left]. apply IH, step_ok_session, Hst.
Qed.

(** Whatever the browser stored, whatever the server answers, and whatever
    the visitor then does on the home page (typing, signing in, registering,
    signing out, in any order), a user is signed in only while a token is in
    the storage, and [App] has left its loading screen. *)
Theorem signed_in_only_with_a_stored_token
  (storage : gmap string string) (seed : result unit) (me : result User) (es : list Event) :
  (user (run storage seed me es) <> None ->
   is_Some (localStorage (run storage seed me es) !! "token"%string))
  /\ appLoading (run storage seed me es) = false.
Proof.
  apply (run_ok es), initApp_ok.
Qed.

(** When [App] mounts, the session is restored exactly when the storage
    holds a non-empty token and [GET /auth/me] accepts it; that request is
    sent, with the token as bearer, only for a non-empty token; a token the
    server rejects is removed from the storage; and the answer to the
    seeding request changes nothing of the state. *)
Theorem initApp_restores_the_session
  (storage : gmap string string) (seed seed' : result unit) (me : result User) (u : User) :
  (user (fst (initApp seed me (mounted storage))) = Some u
   <-> me = Ok u /\ exists token, storage !! "token"%string = Some token /\ token <> EmptyString)
  /\ (forall header,
        In (Sent GetAuthMe header) (snd (initApp seed me (mounted storage)))
        <-> exists token, storage !! "token"%string = Some token /\ token <> EmptyString
                          /\ header = Some ("Bearer " +:+ token)%string)
  /\ (forall e, me = Err e -> authorization storage <> None ->
                localStorage (fst (initApp seed me (mounted storage)))
                = delete "token"%string storage)
  /\ fst (initApp seed me (mounted storage)) = fst (initApp seed' me (mounted storage)).
Proof.
  assert (Hseed : forall s h, ~ In (Sent GetAuthMe h) (seedData s)).
  { intros s h [H|Hin]; [discriminate H|].
    destruct s; [destruct Hin | destruct Hin as [H|[]]; discriminate H]. }
  unfold initApp, authorization. cbn [mounted localStorage user showAuthModal authMode loading
                                        loginForm registerForm].
  destruct (storage !! "token"%string) as [[|a token]|] eqn:Htoken; cbn [Js.truthy].
  - split; [|split; [|split]]; cbn [fst snd user localStorage].
    + split; [discriminate|]. intros (_ & t & Ht & Hne). congruence.
    + intros header. split.
      * intros Hin. destruct (Hseed _ _ Hin).
      * intros (t & Ht & Hne & _). congruence.
    + intros e _ Hauth. contradiction.
    + reflexivity.
  - destruct me as [data|err]; cbn [fst snd user localStorage].
    + split; [|split; [|split]].
      * split.
        -- intros H. injection H as ->. split; [reflexivity|].
           eexists. split; [reflexivity | discriminate].
        -- intros (H & _). injection H as ->. reflexivity.
      * intros header. rewrite in_app_iff. split.
        -- intros [Hin|[H|[]]]; [destruct (Hseed _ _ Hin)|].
           injection H as <-. eexists. split; [reflexivity|].
           split; [discriminate | reflexivity].
        -- intros (t & Ht & _ & ->). injection Ht as <-. right. left. reflexivity.
      * intros e H. discriminate H.
      * reflexivity.
    + split; [|split; [|split]].
      * split; [discriminate|]. intros (H & _). discriminate H.
      * intros header. rewrite in_app_iff. split.
        -- intros [Hin|[H|[]]]; [destruct (Hseed _ _ Hin)|].
           injection H as <-. eexists. split; [reflexivity|].
           split; [discriminate | reflexivity].
        -- intros (t & Ht & _ & ->). injection Ht as <-. right. left. reflexivity.
      * intros e _ _. reflexivity.
      * reflexivity.
  - split; [|split; [|split]]; cbn [fst snd user localStorage].
    + split; [discriminate|]. intros (_ & t & Ht & _). discriminate Ht.
    + intros header. split.
      * intros Hin. destruct (Hseed _ _ Hin).
      * intros (t & Ht & _). discriminate Ht.
    + intros e _ Hauth. contradiction.
    + reflexivity.
Qed.

(** After a successful sign-in the requests made through [api] carry the
    token the server returned as bearer, unless that token is empty, in which
    case the user is signed in and the requests carry no [Authorization]
    header; after signing out, and after [initApp] met a rejected token, they
    carry none. *)
Theorem api_requests_carry_the_token_of_the_session
  (st : State) (token : string) (data : User) (seed : result unit) (e : Error) :
  authorization (localStorage (fst (handleLogin (Ok (token, data)) st)))
  = (if Js.truthy token then Some ("Bearer " +:+ token)%string else None)
  /\ user (fst (handleLogin (Ok (token, data)) st)) = Some data
  /\ authorization (localStorage (fst (handleRegister (Ok (token, data)) st)))
     = authorization (localStorage (fst (handleLogin (Ok (token, data)) st)))
  /\ authorization (localStorage (fst (handleLogout st))) = None
  /\ authorization (localStorage (fst (initApp seed (Err e) st))) = None.
Proof.
  unfold authorization.
  split; [cbn [handleLogin fst localStorage]; rewrite lookup_insert_eq; reflexivity|].
  split; [reflexivity|].
  split; [reflexivity|].
  split; [cbn [handleLogout fst localStorage]; rewrite lookup_delete_eq; reflexivity|].
  unfold initApp.
  destruct (localStorage st !! "token"%string) as [t|] eqn:Ht.
  - destruct (Js.truthy t) eqn:Htruthy; cbn [fst localStorage].
    + rewrite lookup_delete_eq. reflexivity.
    + rewrite Ht, Htruthy. reflexivity.
  - cbn [fst localStorage]. rewrite Ht. reflexivity.
Qed.

End SessionFacts.

(** ** The cart page over any backend *)

Section CartPageOnFacts.
Import Ui CartPage CartPageOn Reference.

(** Over the endpoints of [Server] the handlers are those of [CartPage]. *)
Lemma on_modelled_backend (m : string) (q : Z) :
  CartPageOn.loadCart modelled = CartPage.loadCart
  /\ CartPageOn.removeItem modelled m = CartPage.removeItem m
  /\ CartPageOn.updateQuantity modelled m q = CartPage.updateQuantity m q
  /\ CartPageOn.placeOrder modelled = CartPage.placeOrder.
Proof. repeat split. Qed.

Lemma appendsOk_ret {A} (a : A) : appendsOk (mret a : M A).
Proof. intros w. exists []. split; [symmetry; apply app_nil_r | constructor]. Qed.

Lemma appendsOk_bind {A B} (m : M A) (k : A -> M B) :
  appendsOk m -> (forall a, appendsOk (k a)) -> appendsOk (m ≫= k).
Proof.
  intros Hm Hk w. unfold mbind, M_bind.
  destruct (Hm w) as (l1 & Hl1 & Hok1). destruct (m w) as [a w1]. cbn [snd] in Hl1.
  destruct (Hk a w1) as (l2 & Hl2 & Hok2).
  exists (l1 ++ l2). split; [|apply Forall_app; split; assumption].
  rewrite Hl2, Hl1, app_assoc. reflexivity.
Qed.

Lemma appendsOk_emit (e : Effect) : updateOk e -> appendsOk (emit e).
Proof.
  intros He w. exists [e]. split; [reflexivity | constructor; [exact He | constructor]].
Qed.

Lemma appendsOk_setState (f : State -> State) : appendsOk (setState f).
Proof. intros w. exists []. split; [symmetry; apply app_nil_r | constructor]. Qed.

Lemma appendsOk_getState : appendsOk getState.
Proof. intros w. exists []. split; [symmetry; apply app_nil_r | constructor]. Qed.

Lemma appendsOk_api {A} (r : Server.Request) (endpoint : Server.t -> result A * Server.t) :
  updateOk (Call r) -> appendsOk (api r endpoint).
Proof.
  intros Hr w. unfold api. destruct (endpoint (server w)) as [answer s'].
  exists [Call r]. split; [reflexivity | constructor; [exact Hr | constructor]].
Qed.

Lemma appendsOk_loadCart (b : Backend) : appendsOk (CartPageOn.loadCart b).
Proof.
  unfold CartPageOn.loadCart.
  apply appendsOk_bind; [apply appendsOk_api; exact I|]. intros response.
  apply appendsOk_bind; [|intros _; apply appendsOk_setState].
  destruct response; [apply appendsOk_setState | apply appendsOk_emit; exact I].
Qed.

Lemma appendsOk_removeItem (b : Backend) (m : string) : appendsOk (CartPageOn.removeItem b m).
Proof.
  unfold CartPageOn.removeItem.
  apply appendsOk_bind; [apply appendsOk_api; exact I|]. intros response.
  destruct response; [|apply appendsOk_emit; exact I].
  apply appendsOk_bind; [apply appendsOk_loadCart | intros _; apply appendsOk_emit; exact I].
Qed.

Lemma appendsOk_updateQuantity (b : Backend) (m : string) (q : Z) :
  appendsOk (CartPageOn.updateQuantity b m q).
Proof.
  unfold CartPageOn.updateQuantity.
  destruct (Z.ltb_spec q 1) as [Hlt|Hge]; [apply appendsOk_removeItem|].
  apply appendsOk_bind; [apply appendsOk_api; exact Hge|]. intros response.
  destruct response; [apply appendsOk_loadCart | apply appendsOk_emit; exact I].
Qed.

Lemma appendsOk_placeOrder (b : Backend) : appendsOk (CartPageOn.placeOrder b).
Proof.
  unfold CartPageOn.placeOrder.
  apply appendsOk_bind; [apply appendsOk_getState|]. intros p.
  destruct (negb _); [apply appendsOk_emit; exact I|].
  destruct (_ =? _)%nat; [apply appendsOk_emit; exact I|].
  apply appendsOk_bind; [apply appendsOk_setState|]. intros _.
  apply appendsOk_bind; [apply appendsOk_api; exact I|]. intros response.
  apply appendsOk_bind; [|intros _; apply appendsOk_setState].
  destruct response; [|apply appendsOk_emit; exact I].
  apply appendsOk_bind; [apply appendsOk_emit; exact I | intros _; apply appendsOk_emit; exact I].
Qed.

Lemma appendsOk_click (b : Backend) (c : Click) : appendsOk (click b c).
Proof.
  unfold click.
  apply appendsOk_bind; [apply appendsOk_getState|]. intros p.
  destruct (view p) as [| |lines summary address disabled label]; try apply appendsOk_ret.
  destruct c as [i|i|i|a|].
  - destruct (lines !! i); [apply appendsOk_updateQuantity | apply appendsOk_ret].
  - destruct (lines !! i); [apply appendsOk_updateQuantity | apply appendsOk_ret].
  - destruct (lines !! i); [apply appendsOk_removeItem | apply appendsOk_ret].
  - apply appendsOk_setState.
  - destruct disabled; [apply appendsOk_ret | apply appendsOk_placeOrder].
Qed.

Lemma clicks_appendOk (b : Backend) (cs : list Click) (w : World) :
  exists l, log (clicks b cs w) = log w ++ l /\ Forall updateOk l.
Proof.
  revert w. induction cs as [|c cs IH]; intros w; cbn [clicks fold_left].
  - exists []. split; [symmetry; apply app_nil_r | constructor].
  - destruct (appendsOk_click b c w) as (l1 & Hl1 & Hok1).
    destruct (IH (run (click b c) w)) as (l2 & Hl2 & Hok2).
    exists (l1 ++ l2). split; [|apply Forall_app; split; assumption].
    unfold clicks in Hl2. rewrite Hl2. unfold run. rewrite Hl1, app_assoc. reflexivity.
Qed.

(** Whatever the endpoints answer and whatever is clicked on the cart
    page, in any order, no request to update a quantity carries a quantity
    below 1: the minus button of a line at quantity 1 or less asks for the
    removal of the line instead. *)
Theorem cart_page_never_updates_below_one
  (b : Backend) (cs : list Click) (w : World) (m : string) (q : Z) (item : CartItem) :
  (In (Call (Server.PutCartUpdate m q)) (log (clicks b cs w)) ->
   In (Call (Server.PutCartUpdate m q)) (log w) \/ 1 <= q)
  /\ (quantity item <= 1 -> decrease b item = CartPageOn.removeItem b (menu_item_id item)).
Proof.
  split.
  - destruct (clicks_appendOk b cs w) as (l & -> & Hok).
    rewrite in_app_iff. intros [Hin|Hin]; [left; exact Hin | right].
    rewrite List.Forall_forall in Hok. exact (Hok _ Hin).
  - intros Hq. unfold decrease, CartPageOn.updateQuantity.
    destruct (Z.ltb_spec (quantity item - 1) 1) as [_|Hge]; [reflexivity | lia].
Qed.

Lemma cart_page_never_updates_below_one_witness :
  let line := mkCartItem "m1" "Burger" 9.99%float 1 "" in
  let c := mkCart [line] (Some "r1"%string) in
  let w := mkWorld (Server.mk c [] 0%N ∅ ∅) (mkState c "" false false) [] in
  log (clicks modelled [Increase 0; Decrease 0; Decrease 0] w)
  = [Call (Server.PutCartUpdate "m1" 2); Call Server.GetCart;
     Call (Server.PutCartUpdate "m1" 1); Call Server.GetCart;
     Call (Server.DeleteCartRemove "m1"); Call Server.GetCart;
     ToastSuccess "Item removed from cart"]
  /\ (forall q, In (Call (Server.PutCartUpdate "m1" q))
                   (log (clicks modelled [Increase 0; Decrease 0; Decrease 0] w)) -> 1 <= q).
Proof.
  cbn zeta.
  pose (c := mkCart [mkCartItem "m1" "Burger" 9.99%float 1 ""] (Some "r1"%string)).
  pose (w := mkWorld (Server.mk c [] 0%N ∅ ∅) (mkState c "" false false) []).
  split; [vm_compute; reflexivity|].
  intros q Hin.
  destruct (cart_page_never_updates_below_one modelled [Increase 0; Decrease 0; Decrease 0]
              w "m1" q (mkCartItem "m1" "Burger" 9.99%float 1 "")) as [Hput _].
  destruct (Hput Hin) as [[]|Hq]. exact Hq.
Defined.

(** Whatever the endpoints answer, [removeItem] announces the removal
    exactly when the request to remove was accepted, also when loading the
    cart again then fails: the page then shows both messages and keeps
    showing the cart it had. When the request to remove is refused, nothing
    is loaded and the page keeps its state. *)
Theorem removeItem_announces_by_the_removal_alone
  (b : Backend) (m : string) (w : World) :
  (In (ToastSuccess "Item removed from cart") (log (run (CartPageOn.removeItem b m) w))
   <-> In (ToastSuccess "Item removed from cart") (log w)
       \/ exists c, fst (answerCart b (Server.DeleteCartRemove m) (server w)) = Ok c)
  /\ (forall e s1,
        answerCart b (Server.DeleteCartRemove m) (server w) = (Err e, s1) ->
        run (CartPageOn.removeItem b m) w
        = mkWorld s1 (page w)
            ((log w ++ [Call (Server.DeleteCartRemove m)])
             ++ [ToastError "Failed to remove item"]))
  /\ (forall c s1 e s2,
        answerCart b (Server.DeleteCartRemove m) (server w) = (Ok c, s1) ->
        answerCart b Server.GetCart s1 = (Err e, s2) ->
        run (CartPageOn.removeItem b m) w
        = mkWorld s2
            (mkState (cart (page w)) (deliveryAddress (page w)) false (placing (page w)))
            ((((log w ++ [Call (Server.DeleteCartRemove m)]) ++ [Call Server.GetCart])
              ++ [ToastError "Failed to load cart"])
             ++ [ToastSuccess "Item removed from cart"])).
Proof.
  unfold run, CartPageOn.removeItem, CartPageOn.loadCart, mbind, M_bind, api.
  cbn [server page log].
  destruct (answerCart b (Server.DeleteCartRemove m) (server w)) as [[c|e] s1] eqn:Hdel.
  - cbn [server page log].
    destruct (answerCart b Server.GetCart s1) as [[c2|e2] s2] eqn:Hget.
    + split; [|split].
      * cbn. rewrite !in_app_iff. cbn [In]. split; [intros _; right; eauto | intros _].
        right. left. reflexivity.
      * intros e s H. discriminate H.
      * intros c' s1' e s2' H1. injection H1 as <- <-. rewrite Hget. discriminate.
    + split; [|split].
      * cbn. rewrite !in_app_iff. cbn [In]. split; [intros _; right; eauto | intros _].
        right. left. reflexivity.
      * intros e s H. discriminate H.
      * intros c' s1' e s2' H1. injection H1 as <- <-. rewrite Hget.
        intros H2. injection H2 as <- <-. reflexivity.
  - split; [|split].
    + cbn. rewrite !in_app_iff. cbn [In]. split.
      * intros [[H|[H|[]]]|[H|[]]]; [left; exact H | discriminate H | discriminate H].
      * intros [H|(c & Hc)]; [left; left; exact H | discriminate Hc].
    + intros e' s H. injection H as <- <-. reflexivity.
    + intros c s1' e' s2 H. discriminate H.
Qed.

Lemma removeItem_announces_by_the_removal_alone_witness :
  let b := scripted (fun r => match r with
                              | Server.DeleteCartRemove _ => Ok emptyCart
                              | _ => Err UnavailableError
                              end)
                    (fun _ => Err UnavailableError) in
  log (run (CartPageOn.removeItem b "m1") staleWorld)
  = [Call (Server.DeleteCartRemove "m1"); Call Server.GetCart;
     ToastError "Failed to load cart"; ToastSuccess "Item removed from cart"]
  /\ cart (page (run (CartPageOn.removeItem b "m1") staleWorld)) = cart (page staleWorld).
Proof.
  cbn zeta.
  pose (b := scripted (fun r => match r with
                                | Server.DeleteCartRemove _ => Ok emptyCart
                                | _ => Err UnavailableError
                                end)
                      (fun _ => Err UnavailableError)).
  destruct (removeItem_announces_by_the_removal_alone b "m1" staleWorld) as (_ & _ & Hstale).
  pose proof (Hstale emptyCart (server staleWorld) UnavailableError (server staleWorld)
                eq_refl eq_refl) as Hrun.
  split; [exact (f_equal log Hrun) | exact (f_equal (fun w => cart (page w)) Hrun)].
Defined.

(** [placeOrder] is its start, the answer of the endpoint, and its
    finish. *)
Lemma placeOrder_in_two_steps (b : Backend) (w : World) :
  CartPageOn.placeOrder b w
  = let (sent, w1) := placeOrderStart w in
    match sent with
    | None => (tt, w1)
    | Some a =>
        let (response, s') := answerOrder b a (server w) in
        placeOrderFinish response (mkWorld s' (page w1) (log w1))
    end.
Proof.
  unfold CartPageOn.placeOrder, placeOrderStart, placeOrderFinish, mbind, M_bind, getState.
  destruct (negb _); [reflexivity|].
  destruct (_ =? _)%nat; [reflexivity|].
  unfold api. cbn [setPlacing setState emit server page log mret M_ret].
  destruct (answerOrder b (deliveryAddress (page w)) (server w)) as [[o|e] s']; reflexivity.
Qed.

Lemma happen_ok (st : Awaited) (h : Happening) : flightOk st -> flightOk (happen st h).
Proof.
  unfold flightOk. intros Hst. destruct h as [|a|c|response]; cbn [happen].
  - unfold view.
    destruct (loading (page (world st))); [exact Hst|].
    destruct (length (items (cart (page (world st)))) =? 0)%nat eqn:Hempty; [exact Hst|].
    destruct (placing (page (world st))) eqn:Hplacing; cbn [orb]; [rewrite Hplacing; exact Hst|].
    unfold placeOrderStart, mbind, M_bind, getState.
    destruct (negb _); cbn; [rewrite Hplacing, length_app, Hst; reflexivity|].
    rewrite Hempty. cbn. rewrite length_app, Hst. reflexivity.
  - exact Hst.
  - exact Hst.
  - destruct (inFlight st) as [|a rest] eqn:Hflight; [rewrite Hflight; exact Hst|].
    cbn [world inFlight]. cbn [length] in Hst.
    destruct (placing (page (world st))); [|discriminate Hst].
    injection Hst as Hrest.
    unfold run, placeOrderFinish, mbind, M_bind.
    destruct response; cbn; exact Hrest.
Qed.

(** However the presses on the order button, the typing, the reloads of
    the cart and the answers follow each other, starting from a page that is
    not placing an order, at most one order request awaits its answer, and
    while one does a press on the button does nothing. *)
Theorem one_order_request_at_a_time (w : World) (hs : list Happening) :
  placing (page w) = false ->
  (length (inFlight (fold_left happen hs (mkAwaited w []))) <= 1)%nat
  /\ (inFlight (fold_left happen hs (mkAwaited w [])) <> [] ->
      happen (fold_left happen hs (mkAwaited w [])) Pressed
      = fold_left happen hs (mkAwaited w [])).
Proof.
  intros Hw.
  assert (Hok : flightOk (fold_left happen hs (mkAwaited w []))).
  { assert (H0 : flightOk (mkAwaited w [])) by (unfold flightOk; cbn; rewrite Hw; reflexivity).
    revert H0. generalize (mkAwaited w []).
    induction hs as [|h hs IH]; intros st Hst; [exact Hst|].
    cbn [fold_left]. apply IH, happen_ok, Hst. }
  set (st := fold_left happen hs (mkAwaited w [])) in *.
  unfold flightOk in Hok. split.
  - rewrite Hok. destruct (placing (page (world st))); lia.
  - intros Hflight. cbn [happen]. unfold view.
    destruct (loading (page (world st))); [reflexivity|].
    destruct (length (items (cart (page (world st)))) =? 0)%nat; [reflexivity|].
    destruct (placing (page (world st))); [reflexivity|].
    destruct (inFlight st); [contradiction | discriminate Hok].
Qed.

Lemma one_order_request_at_a_time_witness :
  inFlight (fold_left happen [Pressed; Pressed; Typed "1 Side St"; Pressed]
                      (mkAwaited staleWorld []))
  = ["123 Main St"%string].
Proof.
  destruct (one_order_request_at_a_time
              staleWorld [Pressed; Pressed; Typed "1 Side St"; Pressed] eq_refl) as [Hone _].
  destruct (inFlight (fold_left happen [Pressed; Pressed; Typed "1 Side St"; Pressed]
                                (mkAwaited staleWorld []))) as [|a [|a' rest]] eqn:Hflight.
  - vm_compute in Hflight. discriminate Hflight.
  - vm_compute in Hflight. injection Hflight as <-. reflexivity.
  - cbn [length] in Hone. lia.
Defined.

(** What mounting does for a signed-in user when the cart loads. *)
Lemma mount_loaded (b : Backend) (u : Session.User) (w : World) (c : Cart) (s1 : Server.t) :
  answerCart b Server.GetCart (server w) = (Ok c, s1) ->
  run (mount b (Some u)) w
  = mkWorld s1 (mkState c (addressOrEmpty u) false (placing (page w)))
            (log w ++ [Call Server.GetCart]).
Proof.
  intros Hget. unfold run, mount, CartPageOn.loadCart, mbind, M_bind, api.
  rewrite Hget. reflexivity.
Qed.

(** A signed-in user whose cart loads with items sees the lines with the
    address of the profile filled in and the order button enabled; a press
    then sends the order with exactly that address, if it is not blank, and
    without an address in the profile it sends nothing and asks for the
    address. Without a user, mounting requests nothing and goes home. *)
Theorem profile_address_is_the_default
  (b : Backend) (u : Session.User) (w : World) (c : Cart) (s1 : Server.t) :
  page w = CartPageOn.initial ->
  answerCart b Server.GetCart (server w) = (Ok c, s1) ->
  items c <> [] ->
  view (page (run (mount b (Some u)) w))
  = Lines (items c) (Totals.orderSummary c) (addressOrEmpty u) false "Place Order"
  /\ (~ blank (addressOrEmpty u) ->
      exists l, log (clicks b [PlaceOrder] (run (mount b (Some u)) w))
                = log w ++ [Call Server.GetCart; Call (Server.PostOrders (addressOrEmpty u))]
                        ++ l)
  /\ (blank (addressOrEmpty u) ->
      clicks b [PlaceOrder] (run (mount b (Some u)) w)
      = mkWorld s1 (mkState c (addressOrEmpty u) false false)
                ((log w ++ [Call Server.GetCart])
                 ++ [ToastError "Please enter delivery address"]))
  /\ run (mount b None) w
     = mkWorld (server w) (page w)
               ((log w ++ [ToastError "Please login to view cart"]) ++ [Navigate "/"]).
Proof.
  intros Hpage Hget Hitems.
  rewrite (mount_loaded b u w c s1 Hget), Hpage. cbn [CartPageOn.initial placing].
  assert (Hlen : (length (items c) =? 0)%nat = false).
  { destruct (items c); [contradiction | reflexivity]. }
  assert (Hview : view (mkState c (addressOrEmpty u) false false)
                  = Lines (items c) (Totals.orderSummary c) (addressOrEmpty u) false
                          "Place Order").
  { unfold view. cbn [loading cart deliveryAddress placing]. rewrite Hlen. reflexivity. }
  split; [cbn [page]; exact Hview|].
  split; [|split; [|rewrite <- Hpage; reflexivity]].
  - intros Haddr.
    assert (Htrim : Js.truthy (Js.trim (addressOrEmpty u)) = true).
    { destruct (Js.truthy (Js.trim (addressOrEmpty u))) eqn:H; [reflexivity|].
      exfalso. apply Haddr. unfold blank. destruct (Js.trim (addressOrEmpty u));
        [reflexivity | discriminate H]. }
    cbn [clicks fold_left]. unfold run, click, mbind, M_bind, getState. cbn [page].
    rewrite Hview. unfold CartPageOn.placeOrder, mbind, M_bind, getState.
    cbn [page deliveryAddress cart]. rewrite Htrim, Hlen. cbn [negb].
    unfold api. cbn [setPlacing setState server page log].
    destruct (answerOrder b (addressOrEmpty u) s1) as [[o|e] s2]; cbn.
    + eexists. rewrite <- !app_assoc. cbn [app]. reflexivity.
    + eexists. rewrite <- !app_assoc. cbn [app]. reflexivity.
  - intros Hblank.
    assert (Htrim : Js.truthy (Js.trim (addressOrEmpty u)) = false).
    { unfold blank in Hblank. rewrite Hblank. reflexivity. }
    cbn [clicks fold_left]. unfold run, click, mbind, M_bind, getState. cbn [page].
    rewrite Hview. unfold CartPageOn.placeOrder, mbind, M_bind, getState.
    cbn [page deliveryAddress cart]. rewrite Htrim. reflexivity.
Qed.

Lemma profile_address_is_the_default_witness :
  let ada := Session.mkUser "Ada" (Some "12 Analytical Way"%string) in
  let w := mkWorld (server staleWorld) CartPageOn.initial [] in
  log (clicks modelled [PlaceOrder] (run (mount modelled (Some ada)) w))
  = [Call Server.GetCart; Call (Server.PostOrders "12 Analytical Way");
     ToastSuccess "Order placed successfully!"; Navigate "/orders"].
Proof.
  cbn zeta.
  pose (ada := Session.mkUser "Ada" (Some "12 Analytical Way"%string)).
  pose (w := mkWorld (server staleWorld) CartPageOn.initial []).
  assert (Hitems : items (Server.cart (server staleWorld)) <> []) by discriminate.
  destruct (profile_address_is_the_default modelled ada w _ _ eq_refl eq_refl Hitems)
    as (_ & Hsend & _).
  assert (Haddr : ~ blank (addressOrEmpty ada)).
  { unfold blank. vm_compute. discriminate. }
  destruct (Hsend Haddr) as (l & Hlog).
  vm_compute. reflexivity.
Defined.

End CartPageOnFacts.

(** ** What a failed load shows *)

Section EmptyViewFacts.
Import Ui Reference.

(** When the request that loads a page fails, the page shows what it shows
    when there is nothing: the cart page "Your cart is empty" (with a toast),
    the orders page "No orders yet" (with a toast), the home page "No
    restaurants found" for every query and cuisine (with a line on the
    console only). *)
Theorem failed_load_shows_the_empty_view
  (b : CartPageOn.Backend) (u : Session.User) (w : CartPage.World) (e : Error)
  (s1 : Server.t) (searchQuery selectedCuisine : string) :
  (CartPage.page w = CartPageOn.initial ->
   CartPageOn.answerCart b Server.GetCart (CartPage.server w) = (Err e, s1) ->
   CartPageOn.view (CartPage.page (CartPage.run (CartPageOn.mount b (Some u)) w))
   = CartPageOn.EmptyCart
   /\ CartPage.log (CartPage.run (CartPageOn.mount b (Some u)) w)
      = (CartPage.log w ++ [Call Server.GetCart]) ++ [ToastError "Failed to load cart"])
  /\ OrdersLoad.view (fst (OrdersLoad.mount (Some u) (Err e) OrdersLoad.initial))
     = OrdersLoad.NoOrders
  /\ snd (OrdersLoad.mount (Some u) (Err e) OrdersLoad.initial)
     = [Call Server.GetOrders; ToastError "Failed to load orders"]
  /\ HomeLoad.grid (fst (HomeLoad.loadRestaurants (Err e) [])) searchQuery selectedCuisine
     = HomeLoad.NoResults (HomeLoad.heading selectedCuisine)
  /\ snd (HomeLoad.loadRestaurants (Err e) []) = ["Error loading restaurants:"%string].
Proof.
  split; [|repeat split].
  intros Hpage Hget.
  unfold CartPage.run, CartPageOn.mount, CartPageOn.loadCart, mbind, CartPage.M_bind,
    CartPage.api.
  rewrite Hget, Hpage. split; reflexivity.
Qed.

Lemma failed_load_shows_the_empty_view_witness :
  let down := CartPageOn.scripted (fun _ => Err UnavailableError)
                                  (fun _ => Err UnavailableError) in
  let w := CartPage.mkWorld (CartPage.server staleWorld) CartPageOn.initial [] in
  CartPageOn.view
    (CartPage.page (CartPage.run (CartPageOn.mount down (Some (Session.mkUser "Ada" None))) w))
  = CartPageOn.EmptyCart.
Proof.
  cbn zeta.
  pose (down := CartPageOn.scripted (fun _ => Err UnavailableError)
                                    (fun _ => Err UnavailableError)).
  pose (w := CartPage.mkWorld (CartPage.server staleWorld) CartPageOn.initial []).
  destruct (failed_load_shows_the_empty_view down (Session.mkUser "Ada" None) w
              UnavailableError (CartPage.server staleWorld) "" "All") as (Hcart & _).
  exact (proj1 (Hcart eq_refl eq_refl)).
Defined.

End EmptyViewFacts.

(** ** The badge of an order *)

Section BadgeFacts.
Import OrdersPage Reference.

Lemma statusClass_known (status : string) :
  statusClass status
  = if String.eqb status "placed" then Some status
    else if String.eqb status "preparing" then Some status
    else if String.eqb status "delivered" then Some status
    else None.
Proof.
  unfold statusClass, knownStatuses. cbn [existsb].
  destruct (String.eqb status "placed"); [reflexivity|].
  destruct (String.eqb status "preparing"); [reflexivity|].
  destruct (String.eqb status "delivered"); reflexivity.
Qed.

(** The color of the badge tells the known statuses from each other and
    from the unknown ones: two statuses get the same color exactly when they
    are the same known status or are both unknown. The icon does not: every
    unknown status gets the icon of "preparing". *)
Theorem badge_color_tells_the_status (s1 s2 : string) :
  (getStatusColor s1 = getStatusColor s2 <-> statusClass s1 = statusClass s2)
  /\ (statusClass s1 = None -> getStatusIcon s1 = getStatusIcon "preparing")
  /\ (statusClass s1 = None -> getStatusColor s1 <> getStatusColor "preparing").
Proof.
  rewrite !statusClass_known. unfold getStatusColor, getStatusIcon.
  split; [|split].
  - destruct (String.eqb_spec s1 "placed") as [->|H1];
      [|destruct (String.eqb_spec s1 "preparing") as [->|H2];
        [|destruct (String.eqb_spec s1 "delivered") as [->|H3]]];
      (destruct (String.eqb_spec s2 "placed") as [->|K1];
       [|destruct (String.eqb_spec s2 "preparing") as [->|K2];
         [|destruct (String.eqb_spec s2 "delivered") as [->|K3]]]);
      split; intros H; try reflexivity; try discriminate H.
  - destruct (String.eqb s1 "placed"); [discriminate|].
    destruct (String.eqb s1 "preparing"); [discriminate|].
    destruct (String.eqb s1 "delivered"); [discriminate | reflexivity].
  - destruct (String.eqb s1 "placed"); [discriminate|].
    destruct (String.eqb s1 "preparing"); [discriminate|].
    destruct (String.eqb s1 "delivered"); [discriminate|]. intros _. discriminate.
Qed.

Lemma badge_color_tells_the_status_witness :
  getStatusColor "cancelled" = getStatusColor "refunded"
  /\ getStatusIcon "cancelled" = getStatusIcon "preparing"
  /\ getStatusColor "cancelled" <> getStatusColor "preparing".
Proof.
  destruct (badge_color_tells_the_status "cancelled" "refunded") as (Hcolor & Hicon & Hneq).
  split; [apply Hcolor; reflexivity|].
  split; [apply Hicon; reflexivity | apply Hneq; reflexivity].
Defined.

End BadgeFacts.

(** ** The restaurant page in use *)

Section RestaurantViewFacts.
Import Ui RestaurantView Reference.

Lemma filteredMenu_In (menu : list RestaurantMenu.MenuEntry) (c : string)
  (item : RestaurantMenu.MenuEntry) :
  In item (RestaurantMenu.filteredMenu menu c) -> In item menu.
Proof.
  unfold RestaurantMenu.filteredMenu. destruct (String.eqb c "All"); [tauto|].
  intros Hin. apply filter_In in Hin as [Hin _]. exact Hin.
Qed.

Lemma click_ok (loaded0 : RestaurantMenu.State) (st : State) (c : Click) :
  viewOk loaded0 st ->
  viewOk loaded0 (fst (click st c)) /\ Forall (addOk loaded0) (snd (click st c)).
Proof.
  intros Hst. pose proof Hst as (Hr & Hmenu & Hq & Hcalls). unfold click, RestaurantMenu.view.
  destruct (RestaurantMenu.loading (loaded st));
    [split; [exact Hst | constructor]|].
  destruct (RestaurantMenu.restaurant (loaded st)) as [r|] eqn:Hshown;
    [|split; [exact Hst | constructor]].
  assert (Hsel : selectorsOk (selectors st r)) by (split; assumption).
  assert (Hhandle : forall e,
             (forall out q, In out (snd (RestaurantPage.step (selectors st r) e)) ->
                            RestaurantPage.sentQuantity out = Some q -> 1 <= q) ->
             (forall item, e = RestaurantPage.AddToCart item ->
                           exists entry, In entry (RestaurantMenu.menuItems loaded0)
                                         /\ RestaurantMenu.id entry = RestaurantPage.id item
                                         /\ RestaurantMenu.available entry = true) ->
             viewOk loaded0 (fst (let (s, out) := RestaurantPage.step (selectors st r) e in
                                  (withSelectors st s, out)))
             /\ Forall (addOk loaded0)
                       (snd (let (s, out) := RestaurantPage.step (selectors st r) e in
                             (withSelectors st s, out)))).
  { intros e Hsent Hitem.
    destruct (step_ok (selectors st r) e Hsel) as [[Hq' Hcalls'] _].
    destruct (RestaurantPage.step (selectors st r) e) as [s out] eqn:Hstep.
    cbn [fst snd] in *.
    split; [exact (conj (proj1 Hst) (conj (proj1 (proj2 Hst)) (conj Hq' Hcalls')))|].
    apply List.Forall_forall. intros eff Hin.
    destruct eff as [[|m q rid|m q|m|a|]|msg|err fb|msg|path]; try exact I.
    cbn [addOk]. split; [apply (Hsent _ q Hin); reflexivity|].
    destruct e as [itemId cl|item|k answer].
    - cbn in Hstep. injection Hstep as <- <-. destruct Hin.
    - cbn [RestaurantPage.step] in Hstep. unfold RestaurantPage.handleAddToCart in Hstep.
      cbn [selectors RestaurantPage.user RestaurantPage.quantities RestaurantPage.restaurant]
        in Hstep.
      destruct (user st); injection Hstep as <- <-.
      + destruct Hin as [Heq|[]]. injection Heq as <- <- <-.
        split; [exact (Hitem item eq_refl)|].
        exists r. split; [congruence | reflexivity].
      + destruct Hin as [Heq|[Heq|[]]]; discriminate Heq.
    - cbn [RestaurantPage.step] in Hstep. unfold RestaurantPage.settle in Hstep.
      destruct (RestaurantPage.awaiting (selectors st r) !! k);
        [destruct answer|]; injection Hstep as <- <-.
      + destruct Hin as [Heq|[]]. discriminate Heq.
      + destruct Hin as [Heq|[]]. discriminate Heq.
      + destruct Hin. }
  assert (Hcard : forall i e,
             (forall item, (forall out q,
                 In out (snd (RestaurantPage.step (selectors st r) (e item))) ->
                 RestaurantPage.sentQuantity out = Some q -> 1 <= q)) ->
             (forall item it, e item = RestaurantPage.AddToCart it ->
                              it = RestaurantMenu.asMenuItem item) ->
             viewOk loaded0
               (fst (match RestaurantMenu.filteredMenu (RestaurantMenu.menuItems (loaded st))
                             (RestaurantMenu.selectedCategory (loaded st)) !! i with
                     | Some item =>
                         if RestaurantMenu.available item
                         then let (s, out) := RestaurantPage.step (selectors st r) (e item) in
                              (withSelectors st s, out)
                         else (st, [])
                     | None => (st, [])
                     end))
             /\ Forall (addOk loaded0)
                  (snd (match RestaurantMenu.filteredMenu (RestaurantMenu.menuItems (loaded st))
                                (RestaurantMenu.selectedCategory (loaded st)) !! i with
                        | Some item =>
                            if RestaurantMenu.available item
                            then let (s, out) := RestaurantPage.step (selectors st r) (e item) in
                                 (withSelectors st s, out)
                            else (st, [])
                        | None => (st, [])
                        end))).
  { intros i e Hsent Hadd.
    destruct (_ !! i) as [item|] eqn:Hi; [|split; [exact Hst | constructor]].
    destruct (RestaurantMenu.available item) eqn:Havail;
      [|split; [exact Hst | constructor]].
    apply Hhandle; [apply Hsent|].
    intros it Heq. rewrite (Hadd item it Heq). exists item.
    split; [|split; [reflexivity | exact Havail]].
    rewrite <- Hmenu. apply (filteredMenu_In _ (RestaurantMenu.selectedCategory (loaded st))).
    apply list_elem_of_In, list_elem_of_lookup. eauto. }
  assert (Hsent : forall e out q,
             In out (snd (RestaurantPage.step (selectors st r) e)) ->
             RestaurantPage.sentQuantity out = Some q -> 1 <= q).
  { intros e. exact (proj2 (step_ok (selectors st r) e Hsel)). }
  destruct c as [category|i|i|i|k answer].
  - destruct (existsb _ _); (split; [exact Hst | constructor]).
  - apply Hcard; [intros item; apply Hsent | intros item it H; discriminate H].
  - apply Hcard; [intros item; apply Hsent | intros item it H; discriminate H].
  - apply Hcard; [intros item; apply Hsent|]. intros item it H. injection H as <-. reflexivity.
  - apply Hhandle; [apply Hsent | intros item H; discriminate H].
Qed.

Lemma clicks_ok (loaded0 : RestaurantMenu.State) (cs : list Click) (st : State) :
  viewOk loaded0 st ->
  viewOk loaded0 (fst (clicks st cs)) /\ Forall (addOk loaded0) (snd (clicks st cs)).
Proof.
  revert st. induction cs as [|c cs IH]; intros st Hst; cbn [clicks].
  - split; [exact Hst | constructor].
  - destruct (click_ok loaded0 st c Hst) as [Hst' Hout].
    destruct (click st c) as [st' out]. cbn [fst snd] in Hst', Hout.
    destruct (IH st' Hst') as [Hst'' Hout'].
    destruct (clicks st' cs) as [st'' out']. cbn [fst snd] in *.
    split; [exact Hst'' | apply Forall_app; split; assumption].
Qed.

(** Whatever the visitor clicks on the restaurant page and whatever the
    calls in flight are answered, every request to add to the cart names an
    item of the loaded menu that is available, the restaurant shown, and a
    quantity of at least 1: an item that is not available cannot be added. *)
Theorem only_available_items_are_added
  (loaded0 : RestaurantMenu.State) (u : option string) (cs : list Click)
  (m : string) (q : Z) (rid : string) :
  In (Call (Server.PostCartAdd m q rid)) (snd (clicks (opened loaded0 u) cs)) ->
  1 <= q
  /\ (exists item, In item (RestaurantMenu.menuItems loaded0)
                   /\ RestaurantMenu.id item = m
                   /\ RestaurantMenu.available item = true)
  /\ (exists r, RestaurantMenu.restaurant loaded0 = Some r /\ HomePage.id r = rid).
Proof.
  intros Hin.
  assert (Hopened : viewOk loaded0 (opened loaded0 u)).
  { split; [reflexivity|]. split; [reflexivity|].
    split; [apply map_Forall_empty | constructor]. }
  destruct (clicks_ok loaded0 cs (opened loaded0 u) Hopened) as [_ Hout].
  rewrite List.Forall_forall in Hout. exact (Hout _ Hin).
Qed.

Lemma only_available_items_are_added_witness :
  let luigi := HomePage.mkRestaurant "r1" "Luigi" "Wood-fired pizza" "Italian" "" in
  let pizza := RestaurantMenu.mkMenuEntry "m1" "Margherita" "" 12%float "" "Pizza" true in
  let funghi := RestaurantMenu.mkMenuEntry "m3" "Funghi" "" 13%float "" "Pizza" false in
  let page := opened (RestaurantMenu.mkState (Some luigi) [funghi; pizza] "All" false)
                     (Some "ada"%string) in
  snd (clicks page [Plus 0; Add 0; Plus 1; Add 1]) = [Call (Server.PostCartAdd "m1" 2 "r1")]
  /\ exists item, In item [funghi; pizza] /\ RestaurantMenu.id item = "m1"%string
                  /\ RestaurantMenu.available item = true.
Proof.
  cbn zeta.
  pose (luigi := HomePage.mkRestaurant "r1" "Luigi" "Wood-fired pizza" "Italian" "").
  pose (pizza := RestaurantMenu.mkMenuEntry "m1" "Margherita" "" 12%float "" "Pizza" true).
  pose (funghi := RestaurantMenu.mkMenuEntry "m3" "Funghi" "" 13%float "" "Pizza" false).
  pose (loaded0 := RestaurantMenu.mkState (Some luigi) [funghi; pizza] "All" false).
  assert (Hlog : snd (clicks (opened loaded0 (Some "ada"%string)) [Plus 0; Add 0; Plus 1; Add 1])
                 = [Call (Server.PostCartAdd "m1" 2 "r1")]) by (vm_compute; reflexivity).
  split; [exact Hlog|].
  destruct (only_available_items_are_added loaded0 (Some "ada"%string)
              [Plus 0; Add 0; Plus 1; Add 1] "m1" 2 "r1") as (_ & Hitem & _).
  - rewrite Hlog. left. reflexivity.
  - exact Hitem.
Defined.

End RestaurantViewFacts.
